(** * Help-desk SaaS: access control and ticket lifecycle

    A shallow embedding of the route handlers of the monolithic API server
    (server/routes/tickets.js, routes/users.js, routes/auth.js, the
    middleware in middleware/auth.js) and of the serverless users function
    (netlify/functions/users.js), followed by the properties of the
    authorization and ticket-state subsystem.

    Conventions of the embedding:
    - a Mongo collection is a finite map from the document's [_id] to its
      fields; [findById] is lookup, [save] is insert, [remove] is delete;
    - ObjectIds are strings, compared with [toString()] in the source;
      [populate] only decorates the JSON that is sent and is not modelled;
    - [Date.now()] and the id Mongo generates for a new document are inputs
      of the handler that needs them;
    - role, status and priority are the closed string enums of the schema;
      a handler returns the reply it sends together with the database it
      leaves behind. *)

From stdpp Require Import gmap strings list sorting.
From Stdlib Require Import ZArith Ascii String.

Open Scope string_scope.
Open Scope Z_scope.

(** ** Enumerations *)

Inductive Role := superadmin | admin | agent | customer.
Inductive Status := open | in_progress | on_hold | pending | resolved | archived.
Inductive Priority := low | medium | high | urgent.

#[global] Instance Role_eq_dec : EqDecision Role.
Proof. solve_decision. Defined.
#[global] Instance Status_eq_dec : EqDecision Status.
Proof. solve_decision. Defined.
#[global] Instance Priority_eq_dec : EqDecision Priority.
Proof. solve_decision. Defined.

(** The status names accepted in a query string (GET /api/tickets). *)
Definition statusOfString (s : string) : option Status :=
  if String.eqb s "open" then Some open
  else if String.eqb s "in_progress" then Some in_progress
  else if String.eqb s "on_hold" then Some on_hold
  else if String.eqb s "pending" then Some pending
  else if String.eqb s "resolved" then Some resolved
  else if String.eqb s "archived" then Some archived
  else None.

Abbreviation Id := string.

(** ** Documents *)

Module Ticket.
Record t := mk {
  title : string;
  description : string;
  category : string;
  priority : Priority;
  status : Status;
  createdBy : Id;
  assignedTo : option Id;
  organizationId : Id;
  resolvedAt : option Z;
  updatedAt : Z
}.

Definition set_title (v : string) (d : t) : t :=
  mk v (description d) (category d) (priority d) (status d) (createdBy d)
     (assignedTo d) (organizationId d) (resolvedAt d) (updatedAt d).
Definition set_description (v : string) (d : t) : t :=
  mk (title d) v (category d) (priority d) (status d) (createdBy d)
     (assignedTo d) (organizationId d) (resolvedAt d) (updatedAt d).
Definition set_category (v : string) (d : t) : t :=
  mk (title d) (description d) v (priority d) (status d) (createdBy d)
     (assignedTo d) (organizationId d) (resolvedAt d) (updatedAt d).
Definition set_priority (v : Priority) (d : t) : t :=
  mk (title d) (description d) (category d) v (status d) (createdBy d)
     (assignedTo d) (organizationId d) (resolvedAt d) (updatedAt d).
Definition set_status (v : Status) (d : t) : t :=
  mk (title d) (description d) (category d) (priority d) v (createdBy d)
     (assignedTo d) (organizationId d) (resolvedAt d) (updatedAt d).
Definition set_assignedTo (v : option Id) (d : t) : t :=
  mk (title d) (description d) (category d) (priority d) (status d)
     (createdBy d) v (organizationId d) (resolvedAt d) (updatedAt d).
Definition set_resolvedAt (v : option Z) (d : t) : t :=
  mk (title d) (description d) (category d) (priority d) (status d)
     (createdBy d) (assignedTo d) (organizationId d) v (updatedAt d).
Definition set_updatedAt (v : Z) (d : t) : t :=
  mk (title d) (description d) (category d) (priority d) (status d)
     (createdBy d) (assignedTo d) (organizationId d) (resolvedAt d) v.
End Ticket.

Module TicketResponse.
Record t := mk {
  ticketId : Id;
  userId : Id;
  content : string;
  isInternal : bool;
  createdAt : Z
}.
End TicketResponse.

Module User.
Record t := mk {
  email : string;
  firstName : string;
  lastName : string;
  role : Role;
  organizationId : Id;
  parentUserId : option Id;
  isActive : bool;
  updatedAt : Z
}.

Definition set_firstName (v : string) (d : t) : t :=
  mk (email d) v (lastName d) (role d) (organizationId d) (parentUserId d)
     (isActive d) (updatedAt d).
Definition set_lastName (v : string) (d : t) : t :=
  mk (email d) (firstName d) v (role d) (organizationId d) (parentUserId d)
     (isActive d) (updatedAt d).
Definition set_role (v : Role) (d : t) : t :=
  mk (email d) (firstName d) (lastName d) v (organizationId d)
     (parentUserId d) (isActive d) (updatedAt d).
Definition set_isActive (v : bool) (d : t) : t :=
  mk (email d) (firstName d) (lastName d) (role d) (organizationId d)
     (parentUserId d) v (updatedAt d).
Definition set_updatedAt (v : Z) (d : t) : t :=
  mk (email d) (firstName d) (lastName d) (role d) (organizationId d)
     (parentUserId d) (isActive d) v.
End User.

(** server/models/Organization.js, Subscription.js and PricingPlan.js: the
    fields the entitlement ceiling is read from. *)
Inductive SubscriptionStatus := sub_active | sub_cancelled | sub_expired.

#[global] Instance SubscriptionStatus_eq_dec : EqDecision SubscriptionStatus.
Proof. solve_decision. Defined.

(** [String.prototype.trim], as a schema with [trim: true] applies it. The
    white space is that of the ASCII range: tab, line feed, vertical tab,
    form feed, carriage return and space. *)
Definition isWhiteSpace (c : ascii) : bool :=
  let n := nat_of_ascii c in
  ((n =? 32) || (9 <=? n) && (n <=? 13))%nat.

Fixpoint trimStart (l : list ascii) : list ascii :=
  match l with
  | c :: l' => if isWhiteSpace c then trimStart l' else l
  | [] => []
  end.

Definition trim (s : string) : string :=
  string_of_list_ascii
    (rev (trimStart (rev (trimStart (list_ascii_of_string s))))).

Module Organization.
Record t := mk { name : string; maxUsers : Z }.
(** [new Organization({ name })]:
    [name: { type: String, required: true, trim: true }],
    [maxUsers: { type: Number, default: 5 }] *)
Definition create (n : string) : t := mk (trim n) 5.
(** [required: true] on a string: the document does not validate, and
    [save] throws, when the name is empty. *)
Definition valid (o : t) : bool := negb (String.eqb (name o) EmptyString).
End Organization.

Module Subscription.
Record t := mk { organizationId : Id; planId : Id; status : SubscriptionStatus }.
End Subscription.

Module PricingPlan.
Record t := mk { maxUsers : Z; isActive : bool }.
End PricingPlan.

(** The payload the [auth] middleware puts in [req.user]. *)
Module Actor.
Record t := mk {
  id : Id;
  email : string;
  role : Role;
  organizationId : Id
}.
End Actor.

(** ** The database *)

Record Store := mkStore {
  tickets : gmap Id Ticket.t;
  responses : gmap Id TicketResponse.t;
  users : gmap Id User.t;
  organizations : gmap Id Organization.t;
  subscriptions : gmap Id Subscription.t;
  plans : gmap Id PricingPlan.t
}.

Definition set_tickets (v : gmap Id Ticket.t) (db : Store) : Store :=
  mkStore v (responses db) (users db) (organizations db) (subscriptions db) (plans db).
Definition set_responses (v : gmap Id TicketResponse.t) (db : Store) : Store :=
  mkStore (tickets db) v (users db) (organizations db) (subscriptions db) (plans db).
Definition set_users (v : gmap Id User.t) (db : Store) : Store :=
  mkStore (tickets db) (responses db) v (organizations db) (subscriptions db) (plans db).

(** ** Replies *)

Inductive Reply (A : Type) : Type :=
  | Json (body : A)                    (* res.json(body) *)
  | Fail (code : nat) (msg : string)   (* res.status(code).json({ msg }) *)
  | BadRequest (errors : list string). (* res.status(400).json({ errors }) *)
Arguments Json {A} body.
Arguments Fail {A} code msg.
Arguments BadRequest {A} errors.

(** ** Middleware and validators *)

(** [authorize(...roles)]: [None] stands for [next()]. *)
Definition authorize (roles : list Role) (user : Actor.t) : option (nat * string) :=
  if bool_decide (Actor.role user ∈ roles) then None
  else Some (403%nat, "Not authorized for this action").

(** JavaScript truthiness of an optional string field of the body. *)
Definition truthy (v : option string) : bool :=
  match v with
  | Some s => negb (String.eqb s EmptyString)
  | None => false
  end.

(** [if (v) doc.field = v] for a string field. *)
Definition assignIf (v : option string) (old : string) : string :=
  match v with
  | Some s => if truthy v then s else old
  | None => old
  end.

(** [check(field, msg).optional().not().isEmpty()] *)
Definition optionalNotEmpty (v : option string) (msg : string) : list string :=
  match v with
  | Some s => if String.eqb s EmptyString then [msg] else []
  | None => []
  end.

(** [check(field, msg).not().isEmpty()] *)
Definition notEmpty (v : option string) (msg : string) : list string :=
  if truthy v then [] else [msg].

Definition isHexDigit (c : ascii) : bool :=
  let n := nat_of_ascii c in
  ((48 <=? n) && (n <=? 57) || (65 <=? n) && (n <=? 70)
   || (97 <=? n) && (n <=? 102))%nat.

(** validator.js [isMongoId], on the strings that are ObjectIds: 24
    hexadecimal characters. (The validator also lets a 24-character value
    with a 0x or 0h prefix through; such a value is no ObjectId and the
    [save] that follows throws.) *)
Definition isMongoId (s : string) : bool :=
  (String.length s =? 24)%nat && forallb isHexDigit (list_ascii_of_string s).

(** ** server/routes/tickets.js *)

(** The query string of GET /api/tickets. *)
Record TicketQuery := mkQuery {
  q_status : option string;
  q_search : option string
}.

(** The Mongo filter object the list handler builds. *)
Record TicketFilter := mkFilter {
  f_organizationId : Id;
  f_createdBy : option Id;
  f_status : option Status;
  f_text : option string
}.

(** The body of PUT /api/tickets/:id. *)
Record TicketUpdate := mkUpdate {
  b_title : option string;
  b_description : option string;
  b_status : option Status;
  b_priority : option Priority;
  b_category : option string;
  b_assignedTo : option string
}.

(** A value sent for [isInternal]: a JSON boolean, number or string. *)
Inductive JsFlag :=
  | JBool (b : bool)
  | JNumber (n : Z)
  | JString (s : string).

(** [isBoolean()]: the value, turned into a string, is one of
    'true', 'false', '1', '0'. *)
Definition isBooleanValue (v : JsFlag) : bool :=
  match v with
  | JBool _ => true
  | JNumber n => (n =? 0) || (n =? 1)
  | JString s =>
      String.eqb s "true" || String.eqb s "false"
      || String.eqb s "1" || String.eqb s "0"
  end.

(** JavaScript truthiness of the value: every non-empty string is truthy,
    'false' and '0' included. *)
Definition flagTruthy (v : JsFlag) : bool :=
  match v with
  | JBool b => b
  | JNumber n => negb (n =? 0)
  | JString s => negb (String.eqb s EmptyString)
  end.

(** The body of POST /api/tickets/:id/responses. *)
Record ResponseBody := mkResponseBody {
  b_content : option string;
  b_isInternal : option JsFlag
}.

Abbreviation TicketDoc := (Id * Ticket.t)%type.
Abbreviation ResponseDoc := (Id * TicketResponse.t)%type.

(** [.sort({ updatedAt: -1 })] and [.sort({ createdAt: 1 })] *)
Definition byUpdatedDesc (a b : TicketDoc) : Prop :=
  Ticket.updatedAt b.2 ≤ Ticket.updatedAt a.2.
Definition byCreatedAsc (a b : ResponseDoc) : Prop :=
  TicketResponse.createdAt a.2 ≤ TicketResponse.createdAt b.2.

#[global] Instance byUpdatedDesc_dec a b : Decision (byUpdatedDesc a b).
Proof. unfold byUpdatedDesc. apply _. Defined.
#[global] Instance byCreatedAsc_dec a b : Decision (byCreatedAsc a b).
Proof. unfold byCreatedAsc. apply _. Defined.

(** [TicketResponse.find({ ticketId }).sort({ createdAt: 1 })] *)
Definition findResponses (id : Id) (db : Store) : list ResponseDoc :=
  merge_sort byCreatedAsc
    (map_to_list (filter (λ d : ResponseDoc, TicketResponse.ticketId d.2 = id)
                         (responses db))).

(** [responses.filter(response => !response.isInternal)] for a customer,
    the list itself for every other role. *)
Definition filteredResponses (user : Actor.t) (rs : list ResponseDoc)
  : list ResponseDoc :=
  if bool_decide (Actor.role user = customer)
  then List.filter (λ response, negb (TicketResponse.isInternal response.2)) rs
  else rs.

(** The access test of POST /:id/responses, where [ticket.createdBy] is the
    id of the creator. *)
Definition noAccess (user : Actor.t) (ticket : Ticket.t) : bool :=
  negb (bool_decide (Ticket.organizationId ticket = Actor.organizationId user))
  || (bool_decide (Actor.role user = customer)
      && negb (bool_decide (Ticket.createdBy ticket = Actor.id user))).

Definition validateTicketUpdate (body : TicketUpdate) : list string :=
  optionalNotEmpty (b_title body) "Title is required"
  ++ optionalNotEmpty (b_description body) "Description is required"
  ++ match b_assignedTo body with
     | Some a => if isMongoId a then [] else ["Invalid user ID"]
     | None => []
     end.

(** The status branch of the update handler, statement by statement: the
    new status is stored first and the test that follows reads it back. *)
Definition applyStatus (now : Z) (status : option Status) (ticket : Ticket.t)
  : Ticket.t :=
  match status with
  | None => ticket
  | Some s =>
      let ticket := Ticket.set_status s ticket in
      if bool_decide (s = resolved)
         && negb (bool_decide (Ticket.status ticket = resolved))
      then Ticket.set_resolvedAt (Some now) ticket
      else if negb (bool_decide (s = resolved))
      then Ticket.set_resolvedAt None ticket
      else ticket
  end.

Definition applyPriority (p : option Priority) (ticket : Ticket.t) : Ticket.t :=
  match p with
  | Some v => Ticket.set_priority v ticket
  | None => ticket
  end.

Definition applyAssignedTo (a : option string) (ticket : Ticket.t) : Ticket.t :=
  if truthy a then Ticket.set_assignedTo a ticket else ticket.

(** Customers can only update title, description, and category. *)
Definition customerFields (body : TicketUpdate) (ticket : Ticket.t) : Ticket.t :=
  let ticket := Ticket.set_title (assignIf (b_title body) (Ticket.title ticket)) ticket in
  let ticket := Ticket.set_description
                  (assignIf (b_description body) (Ticket.description ticket)) ticket in
  Ticket.set_category (assignIf (b_category body) (Ticket.category ticket)) ticket.

(** Agents and admins can update all fields. *)
Definition staffFields (now : Z) (body : TicketUpdate) (ticket : Ticket.t) : Ticket.t :=
  let ticket := Ticket.set_title (assignIf (b_title body) (Ticket.title ticket)) ticket in
  let ticket := Ticket.set_description
                  (assignIf (b_description body) (Ticket.description ticket)) ticket in
  let ticket := applyStatus now (b_status body) ticket in
  let ticket := applyPriority (b_priority body) ticket in
  let ticket := Ticket.set_category
                  (assignIf (b_category body) (Ticket.category ticket)) ticket in
  applyAssignedTo (b_assignedTo body) ticket.

Section TicketRoutes.
(** The text index behind [$text: { $search }] is an oracle. *)
Context (textSearch : string → TicketDoc → bool).

Definition buildFilter (user : Actor.t) (query : TicketQuery) : TicketFilter :=
  {| f_organizationId := Actor.organizationId user;
     f_createdBy :=
       if bool_decide (Actor.role user = customer)
       then Some (Actor.id user) else None;
     f_status :=
       if truthy (q_status query)
       then q_status query ≫= statusOfString else None;
     f_text := if truthy (q_search query) then q_search query else None |}.

Definition matches (f : TicketFilter) (d : TicketDoc) : bool :=
  bool_decide (Ticket.organizationId d.2 = f_organizationId f)
  && match f_createdBy f with
     | Some u => bool_decide (Ticket.createdBy d.2 = u)
     | None => true
     end
  && match f_status f with
     | Some s => bool_decide (Ticket.status d.2 = s)
     | None => true
     end
  && match f_text f with
     | Some w => textSearch w d
     | None => true
     end.

(** GET /api/tickets *)
Definition listTickets (user : Actor.t) (query : TicketQuery) (db : Store)
  : Reply (list TicketDoc) :=
  let query := buildFilter user query in
  Json (merge_sort byUpdatedDesc
          (List.filter (matches query) (map_to_list (tickets db)))).
End TicketRoutes.

(** [res.status(500).send('Server error')], the reply of a [catch]. *)
Definition serverError {A} : Reply A := Fail 500 "Server error".

(** GET /api/tickets/:id. The ticket is loaded with
    [.populate('createdBy', ...)], so in the access test [ticket.createdBy]
    is the creator's user document, or null when that user is gone, and not
    an id: [ticket.createdBy.toString()] is the dump of the document, which
    no [req.user.id] equals, and on null it throws. The test is reached only
    for a customer of the ticket's organization ([||] and [&&] short-cut). *)
Definition getTicket (user : Actor.t) (id : Id) (db : Store)
  : Reply (Ticket.t * list ResponseDoc) :=
  match tickets db !! id with
  | None => Fail 404 "Ticket not found"
  | Some ticket =>
      if negb (bool_decide
                 (Ticket.organizationId ticket = Actor.organizationId user))
      then Fail 403 "Not authorized to access this ticket"
      else if bool_decide (Actor.role user = customer)
      then
        match users db !! Ticket.createdBy ticket with
        | Some _ => Fail 403 "Not authorized to access this ticket"
        | None => serverError
        end
      else Json (ticket, filteredResponses user (findResponses id db))
  end.

(** PUT /api/tickets/:id *)
Definition updateTicket (now : Z) (user : Actor.t) (id : Id)
    (body : TicketUpdate) (db : Store) : Reply Ticket.t * Store :=
  match validateTicketUpdate body with
  | (_ :: _) as errors => (BadRequest errors, db)
  | [] =>
      match tickets db !! id with
      | None => (Fail 404 "Ticket not found", db)
      | Some ticket =>
          if negb (bool_decide
                     (Ticket.organizationId ticket = Actor.organizationId user))
          then (Fail 403 "Not authorized to update this ticket", db)
          else if bool_decide (Actor.role user = customer)
          then
            if negb (bool_decide (Ticket.createdBy ticket = Actor.id user))
            then (Fail 403 "Not authorized to update this ticket", db)
            else
              let ticket := Ticket.set_updatedAt now (customerFields body ticket) in
              (Json ticket, set_tickets (<[id := ticket]> (tickets db)) db)
          else
            let ticket := Ticket.set_updatedAt now (staffFields now body ticket) in
            (Json ticket, set_tickets (<[id := ticket]> (tickets db)) db)
      end
  end.

Definition validateResponse (body : ResponseBody) : list string :=
  notEmpty (b_content body) "Content is required"
  ++ match b_isInternal body with
     | Some v => if isBooleanValue v then []
                 else ["isInternal must be a boolean"]
     | None => []
     end.

(** Only agents can create internal notes:
    [isInternal && ['admin', 'agent'].includes(req.user.role)]; a falsy
    value (false, 0, nothing sent) is stored as false. *)
Definition isInternalNote (user : Actor.t) (isInternal : option JsFlag) : bool :=
  match isInternal with
  | Some v => flagTruthy v && bool_decide (Actor.role user ∈ [admin; agent])
  | None => false
  end.

(** POST /api/tickets/:id/responses; [rid] is the id of the new response. *)
Definition addResponse (now : Z) (rid : Id) (user : Actor.t) (id : Id)
    (body : ResponseBody) (db : Store) : Reply ResponseDoc * Store :=
  match validateResponse body with
  | (_ :: _) as errors => (BadRequest errors, db)
  | [] =>
      match tickets db !! id with
      | None => (Fail 404 "Ticket not found", db)
      | Some ticket =>
          if noAccess user ticket
          then (Fail 403 "Not authorized to respond to this ticket", db)
          else
            let response :=
              {| TicketResponse.ticketId := id;
                 TicketResponse.userId := Actor.id user;
                 TicketResponse.content := default EmptyString (b_content body);
                 TicketResponse.isInternal :=
                   isInternalNote user (b_isInternal body);
                 TicketResponse.createdAt := now |} in
            let db := set_responses (<[rid := response]> (responses db)) db in
            let db :=
              if bool_decide (Ticket.status ticket ∈ [resolved; archived])
              then
                let ticket := Ticket.set_status open ticket in
                let ticket := Ticket.set_resolvedAt None ticket in
                let ticket := Ticket.set_updatedAt now ticket in
                set_tickets (<[id := ticket]> (tickets db)) db
              else db in
            (Json (rid, response), db)
      end
  end.

(** DELETE /api/tickets/:id, behind [authorize('admin')]. *)
Definition deleteTicket (user : Actor.t) (id : Id) (db : Store)
  : Reply string * Store :=
  match authorize [admin] user with
  | Some (code, msg) => (Fail code msg, db)
  | None =>
      match tickets db !! id with
      | None => (Fail 404 "Ticket not found", db)
      | Some ticket =>
          if negb (bool_decide
                     (Ticket.organizationId ticket = Actor.organizationId user))
          then (Fail 403 "Not authorized to delete this ticket", db)
          else
            let db :=
              set_responses
                (filter (λ d : ResponseDoc, TicketResponse.ticketId d.2 ≠ id)
                        (responses db)) db in
            let db := set_tickets (delete id (tickets db)) db in
            (Json "Ticket removed", db)
      end
  end.

(** The body of POST /api/tickets. *)
Record NewTicket := mkNewTicket {
  n_title : option string;
  n_description : option string;
  n_priority : option Priority;
  n_category : option string
}.

Definition validateNewTicket (body : NewTicket) : list string :=
  notEmpty (n_title body) "Title is required"
  ++ notEmpty (n_description body) "Description is required"
  ++ notEmpty (n_category body) "Category is required".

(** Modelled from the spec: models/Ticket.js is not among the sources, so the
    schema defaults of a new ticket are taken from the data model of the
    spec: status open, no assignee, no [resolvedAt]; [updatedAt] is the
    creation time (database-schema.md gives the tickets table the same
    defaults). The route itself sets title, description, category,
    [priority || 'medium'], [createdBy] and [organizationId]. *)
Definition newTicket (now : Z) (user : Actor.t) (body : NewTicket) : Ticket.t :=
  {| Ticket.title := default EmptyString (n_title body);
     Ticket.description := default EmptyString (n_description body);
     Ticket.category := default EmptyString (n_category body);
     Ticket.priority := default medium (n_priority body);
     Ticket.status := open;
     Ticket.createdBy := Actor.id user;
     Ticket.assignedTo := None;
     Ticket.organizationId := Actor.organizationId user;
     Ticket.resolvedAt := None;
     Ticket.updatedAt := now |}.

(** POST /api/tickets; [tid] is the id of the new ticket. *)
Definition createTicket (now : Z) (tid : Id) (user : Actor.t) (body : NewTicket)
    (db : Store) : Reply TicketDoc * Store :=
  match validateNewTicket body with
  | (_ :: _) as errors => (BadRequest errors, db)
  | [] =>
      let ticket := newTicket now user body in
      (Json (tid, ticket), set_tickets (<[tid := ticket]> (tickets db)) db)
  end.

(** ** routes/users.js: every route is behind [authorize('admin')] *)

Abbreviation UserDoc := (Id * User.t)%type.

(** The body of PUT /api/users/:id. *)
Record UserUpdate := mkUserUpdate {
  b_firstName : option string;
  b_lastName : option string;
  b_role : option Role;
  b_isActive : option bool
}.

Definition validateUserUpdate (body : UserUpdate) : list string :=
  optionalNotEmpty (b_firstName body) "First name is required"
  ++ optionalNotEmpty (b_lastName body) "Last name is required"
  ++ match b_role body with
     | Some r => if bool_decide (r ∈ [admin; agent; customer]) then []
                 else ["Invalid role"]
     | None => []
     end.

(** GET /api/users *)
Definition listUsers (user : Actor.t) (db : Store) : Reply (list UserDoc) :=
  match authorize [admin] user with
  | Some (code, msg) => Fail code msg
  | None =>
      Json (map_to_list
              (filter (λ d : UserDoc,
                         User.organizationId d.2 = Actor.organizationId user)
                      (users db)))
  end.

(** GET /api/users/:id *)
Definition getUser (user : Actor.t) (id : Id) (db : Store) : Reply User.t :=
  match authorize [admin] user with
  | Some (code, msg) => Fail code msg
  | None =>
      match users db !! id with
      | None => Fail 404 "User not found"
      | Some u =>
          if negb (bool_decide (User.organizationId u = Actor.organizationId user))
          then Fail 403 "Not authorized to access this user"
          else Json u
      end
  end.

(** The field update block of PUT /api/users/:id. *)
Definition userFields (now : Z) (body : UserUpdate) (u : User.t) : User.t :=
  let u := User.set_firstName (assignIf (b_firstName body) (User.firstName u)) u in
  let u := User.set_lastName (assignIf (b_lastName body) (User.lastName u)) u in
  let u := match b_role body with Some r => User.set_role r u | None => u end in
  let u := match b_isActive body with Some a => User.set_isActive a u | None => u end in
  User.set_updatedAt now u.

(** PUT /api/users/:id *)
Definition updateUser (now : Z) (user : Actor.t) (id : Id) (body : UserUpdate)
    (db : Store) : Reply User.t * Store :=
  match authorize [admin] user with
  | Some (code, msg) => (Fail code msg, db)
  | None =>
      match validateUserUpdate body with
      | (_ :: _) as errors => (BadRequest errors, db)
      | [] =>
          match users db !! id with
          | None => (Fail 404 "User not found", db)
          | Some u =>
              if negb (bool_decide
                         (User.organizationId u = Actor.organizationId user))
              then (Fail 403 "Not authorized to update this user", db)
              else
                let u := userFields now body u in
                (Json u, set_users (<[id := u]> (users db)) db)
          end
      end
  end.

(** DELETE /api/users/:id *)
Definition deleteUser (user : Actor.t) (id : Id) (db : Store)
  : Reply string * Store :=
  match authorize [admin] user with
  | Some (code, msg) => (Fail code msg, db)
  | None =>
      match users db !! id with
      | None => (Fail 404 "User not found", db)
      | Some u =>
          if negb (bool_decide
                     (User.organizationId u = Actor.organizationId user))
          then (Fail 403 "Not authorized to delete this user", db)
          else
            (* Prevent deleting the main admin account *)
            match User.parentUserId u with
            | None => (Fail 400 "Cannot delete the main admin account", db)
            | Some _ => (Json "User removed", set_users (delete id (users db)) db)
            end
      end
  end.

(** ** routes/auth.js: POST /api/auth/subuser *)

Record SubuserBody := mkSubuserBody {
  s_email : option string;
  s_password : option string;
  s_firstName : option string;
  s_lastName : option string;
  s_role : option Role
}.

(** [User.findOne({ email })] *)
Definition emailTaken (email : string) (db : Store) : bool :=
  existsb (λ d : UserDoc, bool_decide (User.email d.2 = email))
          (map_to_list (users db)).

Section AuthRoutes.
(** validator.js [isEmail] is an oracle. *)
Context (isEmail : string → bool).

Definition validateSubuser (body : SubuserBody) : list string :=
  (if isEmail (default EmptyString (s_email body)) then []
   else ["Please include a valid email"])
  ++ (if (6 <=? String.length (default EmptyString (s_password body)))%nat then []
      else ["Password must be at least 6 characters"])
  ++ notEmpty (s_firstName body) "First name is required"
  ++ notEmpty (s_lastName body) "Last name is required"
  ++ match s_role body with
     | Some r => if bool_decide (r ∈ [agent; customer]) then []
                 else ["Role is required"]
     | None => ["Role is required"]
     end.

(** Modelled from the spec: models/User.js is not among the sources, so the
    schema defaults of a new account are taken from the data model of the
    spec: the account is active, [updatedAt] is the creation time. *)
Definition newSubuser (now : Z) (user : Actor.t) (email firstName lastName : string)
    (role : Role) : User.t :=
  {| User.email := email;
     User.firstName := firstName;
     User.lastName := lastName;
     User.role := role;
     User.organizationId := Actor.organizationId user;
     User.parentUserId := Some (Actor.id user);
     User.isActive := true;
     User.updatedAt := now |}.

(** [uid] is the id of the new user document. *)
Definition createSubuser (now : Z) (uid : Id) (user : Actor.t)
    (body : SubuserBody) (db : Store) : Reply (string * Id) * Store :=
  match authorize [admin] user with
  | Some (code, msg) => (Fail code msg, db)
  | None =>
      match validateSubuser body with
      | (_ :: _) as errors => (BadRequest errors, db)
      | [] =>
          let email := default EmptyString (s_email body) in
          if emailTaken email db
          then (Fail 400 "User already exists", db)
          else
            let u := newSubuser now user email
                       (default EmptyString (s_firstName body))
                       (default EmptyString (s_lastName body))
                       (default customer (s_role body)) in
            (Json ("Subuser created successfully", uid),
             set_users (<[uid := u]> (users db)) db)
      end
  end.
End AuthRoutes.

(** ** routes/auth.js: register, login, me *)

Definition set_organizations (v : gmap Id Organization.t) (db : Store) : Store :=
  mkStore (tickets db) (responses db) (users db) v (subscriptions db) (plans db).

Record RegisterBody := mkRegisterBody {
  r_email : option string;
  r_password : option string;
  r_firstName : option string;
  r_lastName : option string;
  r_organizationName : option string
}.

Record LoginBody := mkLoginBody {
  l_email : option string;
  l_password : option string
}.

(** [User.findOne({ email })] *)
Definition findByEmail (email : string) (db : Store) : option UserDoc :=
  List.find (λ d : UserDoc, bool_decide (User.email d.2 = email))
            (map_to_list (users db)).

(** The payload that is signed into the token. *)
Definition payload (d : UserDoc) : Actor.t :=
  {| Actor.id := d.1;
     Actor.email := User.email d.2;
     Actor.role := User.role d.2;
     Actor.organizationId := User.organizationId d.2 |}.

Section Registration.
(** validator.js [isEmail] and the password check of the user model
    ([user.comparePassword]) are oracles. *)
Context (isEmail : string → bool).
Context (comparePassword : UserDoc → string → bool).

Definition validateRegister (body : RegisterBody) : list string :=
  (if isEmail (default EmptyString (r_email body)) then []
   else ["Please include a valid email"])
  ++ (if (6 <=? String.length (default EmptyString (r_password body)))%nat then []
      else ["Password must be at least 6 characters"])
  ++ notEmpty (r_firstName body) "First name is required"
  ++ notEmpty (r_lastName body) "Last name is required"
  ++ notEmpty (r_organizationName body) "Organization name is required".

(** Modelled from the spec: models/User.js is not among the sources; a new
    account is active and has no [parentUserId] unless one is given. The
    route sets e-mail, names, the role admin ("First user is admin") and the
    organization just created. *)
Definition firstUser (now : Z) (oid : Id) (body : RegisterBody) : User.t :=
  {| User.email := default EmptyString (r_email body);
     User.firstName := default EmptyString (r_firstName body);
     User.lastName := default EmptyString (r_lastName body);
     User.role := admin;
     User.organizationId := oid;
     User.parentUserId := None;
     User.isActive := true;
     User.updatedAt := now |}.

(** POST /api/auth/register; [oid] and [uid] are the ids of the new
    organization and of the new user. The reply stands for the token: it is
    the payload that is signed. *)
Definition register (now : Z) (oid uid : Id) (body : RegisterBody) (db : Store)
  : Reply Actor.t * Store :=
  match validateRegister body with
  | (_ :: _) as errors => (BadRequest errors, db)
  | [] =>
      if emailTaken (default EmptyString (r_email body)) db
      then (Fail 400 "User already exists", db)
      else
        let organization :=
          Organization.create (default EmptyString (r_organizationName body)) in
        if negb (Organization.valid organization)
        then (serverError, db)
        else
          let db :=
            set_organizations (<[oid := organization]> (organizations db)) db in
          let user := firstUser now oid body in
          let db := set_users (<[uid := user]> (users db)) db in
          (Json (payload (uid, user)), db)
  end.

Definition validateLogin (body : LoginBody) : list string :=
  (if isEmail (default EmptyString (l_email body)) then []
   else ["Please include a valid email"])
  ++ match l_password body with
     | Some _ => []
     | None => ["Password is required"]
     end.

(** POST /api/auth/login *)
Definition login (body : LoginBody) (db : Store) : Reply Actor.t :=
  match validateLogin body with
  | (_ :: _) as errors => BadRequest errors
  | [] =>
      match findByEmail (default EmptyString (l_email body)) db with
      | None => Fail 400 "Invalid credentials"
      | Some user =>
          if comparePassword user (default EmptyString (l_password body))
          then Json (payload user)
          else Fail 400 "Invalid credentials"
      end
  end.
End Registration.

(** GET /api/auth/me: [res.json(user)], null for an account that is gone. *)
Definition me (user : Actor.t) (db : Store) : Reply (option User.t) :=
  Json (users db !! Actor.id user).

(** ** Store calls that throw

    Every handler of the API server runs in one [try]: when a call to the
    store throws, what was written before it stays written and the [catch]
    answers 500. [fault] is the position, counted from 0 among the store
    calls the request makes, of the call that throws; without a fault every
    call completes, which is the run the definitions above describe. (A cast
    error on a malformed id is answered 404, like an id that is not found.) *)
Definition throws (fault : option nat) (call : nat) : bool :=
  match fault with
  | Some k => Nat.eqb k call
  | None => false
  end.

(** POST /api/tickets: [newTicket.save()]. *)
Definition createTicketIO (fault : option nat) (now : Z) (tid : Id)
    (user : Actor.t) (body : NewTicket) (db : Store) : Reply TicketDoc * Store :=
  match validateNewTicket body with
  | (_ :: _) as errors => (BadRequest errors, db)
  | [] =>
      if throws fault 0 then (serverError, db)
      else
        let ticket := newTicket now user body in
        (Json (tid, ticket), set_tickets (<[tid := ticket]> (tickets db)) db)
  end.

(** PUT /api/tickets/:id: [Ticket.findById], [ticket.save()]. *)
Definition updateTicketIO (fault : option nat) (now : Z) (user : Actor.t)
    (id : Id) (body : TicketUpdate) (db : Store) : Reply Ticket.t * Store :=
  match validateTicketUpdate body with
  | (_ :: _) as errors => (BadRequest errors, db)
  | [] =>
      if throws fault 0 then (serverError, db)
      else
        match tickets db !! id with
        | None => (Fail 404 "Ticket not found", db)
        | Some ticket =>
            if negb (bool_decide
                       (Ticket.organizationId ticket = Actor.organizationId user))
            then (Fail 403 "Not authorized to update this ticket", db)
            else if bool_decide (Actor.role user = customer)
            then
              if negb (bool_decide (Ticket.createdBy ticket = Actor.id user))
              then (Fail 403 "Not authorized to update this ticket", db)
              else
                let ticket :=
                  Ticket.set_updatedAt now (customerFields body ticket) in
                if throws fault 1 then (serverError, db)
                else (Json ticket, set_tickets (<[id := ticket]> (tickets db)) db)
            else
              let ticket := Ticket.set_updatedAt now (staffFields now body ticket) in
              if throws fault 1 then (serverError, db)
              else (Json ticket, set_tickets (<[id := ticket]> (tickets db)) db)
        end
  end.

(** POST /api/tickets/:id/responses: [Ticket.findById],
    [newResponse.save()], [ticket.save()] when the ticket is reopened, and
    [response.populate(...)]. *)
Definition addResponseIO (fault : option nat) (now : Z) (rid : Id)
    (user : Actor.t) (id : Id) (body : ResponseBody) (db : Store)
  : Reply ResponseDoc * Store :=
  match validateResponse body with
  | (_ :: _) as errors => (BadRequest errors, db)
  | [] =>
      if throws fault 0 then (serverError, db)
      else
        match tickets db !! id with
        | None => (Fail 404 "Ticket not found", db)
        | Some ticket =>
            if noAccess user ticket
            then (Fail 403 "Not authorized to respond to this ticket", db)
            else
              let response :=
                {| TicketResponse.ticketId := id;
                   TicketResponse.userId := Actor.id user;
                   TicketResponse.content := default EmptyString (b_content body);
                   TicketResponse.isInternal :=
                     isInternalNote user (b_isInternal body);
                   TicketResponse.createdAt := now |} in
              if throws fault 1 then (serverError, db)
              else
                let db := set_responses (<[rid := response]> (responses db)) db in
                if bool_decide (Ticket.status ticket ∈ [resolved; archived])
                then
                  if throws fault 2 then (serverError, db)
                  else
                    let ticket := Ticket.set_status open ticket in
                    let ticket := Ticket.set_resolvedAt None ticket in
                    let ticket := Ticket.set_updatedAt now ticket in
                    let db := set_tickets (<[id := ticket]> (tickets db)) db in
                    if throws fault 3 then (serverError, db)
                    else (Json (rid, response), db)
                else
                  if throws fault 2 then (serverError, db)
                  else (Json (rid, response), db)
        end
  end.

(** DELETE /api/tickets/:id: [Ticket.findById],
    [TicketResponse.deleteMany], [ticket.remove()]. *)
Definition deleteTicketIO (fault : option nat) (user : Actor.t) (id : Id)
    (db : Store) : Reply string * Store :=
  match authorize [admin] user with
  | Some (code, msg) => (Fail code msg, db)
  | None =>
      if throws fault 0 then (serverError, db)
      else
        match tickets db !! id with
        | None => (Fail 404 "Ticket not found", db)
        | Some ticket =>
            if negb (bool_decide
                       (Ticket.organizationId ticket = Actor.organizationId user))
            then (Fail 403 "Not authorized to delete this ticket", db)
            else if throws fault 1 then (serverError, db)
            else
              let db :=
                set_responses
                  (filter (λ d : ResponseDoc, TicketResponse.ticketId d.2 ≠ id)
                          (responses db)) db in
              if throws fault 2 then (serverError, db)
              else (Json "Ticket removed", set_tickets (delete id (tickets db)) db)
        end
  end.

(** PUT /api/users/:id: [User.findById], [user.save()]. *)
Definition updateUserIO (fault : option nat) (now : Z) (user : Actor.t)
    (id : Id) (body : UserUpdate) (db : Store) : Reply User.t * Store :=
  match authorize [admin] user with
  | Some (code, msg) => (Fail code msg, db)
  | None =>
      match validateUserUpdate body with
      | (_ :: _) as errors => (BadRequest errors, db)
      | [] =>
          if throws fault 0 then (serverError, db)
          else
            match users db !! id with
            | None => (Fail 404 "User not found", db)
            | Some u =>
                if negb (bool_decide
                           (User.organizationId u = Actor.organizationId user))
                then (Fail 403 "Not authorized to update this user", db)
                else
                  let u := userFields now body u in
                  if throws fault 1 then (serverError, db)
                  else (Json u, set_users (<[id := u]> (users db)) db)
            end
      end
  end.

(** DELETE /api/users/:id: [User.findById], [user.remove()]. *)
Definition deleteUserIO (fault : option nat) (user : Actor.t) (id : Id)
    (db : Store) : Reply string * Store :=
  match authorize [admin] user with
  | Some (code, msg) => (Fail code msg, db)
  | None =>
      if throws fault 0 then (serverError, db)
      else
        match users db !! id with
        | None => (Fail 404 "User not found", db)
        | Some u =>
            if negb (bool_decide
                       (User.organizationId u = Actor.organizationId user))
            then (Fail 403 "Not authorized to delete this user", db)
            else
              match User.parentUserId u with
              | None => (Fail 400 "Cannot delete the main admin account", db)
              | Some _ =>
                  if throws fault 1 then (serverError, db)
                  else (Json "User removed", set_users (delete id (users db)) db)
              end
        end
  end.

(** POST /api/auth/subuser: [User.findOne], [user.save()]. *)
Definition createSubuserIO (isEmail : string → bool) (fault : option nat)
    (now : Z) (uid : Id) (user : Actor.t) (body : SubuserBody) (db : Store)
  : Reply (string * Id) * Store :=
  match authorize [admin] user with
  | Some (code, msg) => (Fail code msg, db)
  | None =>
      match validateSubuser isEmail body with
      | (_ :: _) as errors => (BadRequest errors, db)
      | [] =>
          if throws fault 0 then (serverError, db)
          else
            let email := default EmptyString (s_email body) in
            if emailTaken email db
            then (Fail 400 "User already exists", db)
            else if throws fault 1 then (serverError, db)
            else
              let u := newSubuser now user email
                         (default EmptyString (s_firstName body))
                         (default EmptyString (s_lastName body))
                         (default customer (s_role body)) in
              (Json ("Subuser created successfully", uid),
               set_users (<[uid := u]> (users db)) db)
      end
  end.

(** POST /api/auth/register: [User.findOne], [organization.save()],
    [user.save()]. *)
Definition registerIO (isEmail : string → bool) (fault : option nat) (now : Z)
    (oid uid : Id) (body : RegisterBody) (db : Store) : Reply Actor.t * Store :=
  match validateRegister isEmail body with
  | (_ :: _) as errors => (BadRequest errors, db)
  | [] =>
      if throws fault 0 then (serverError, db)
      else if emailTaken (default EmptyString (r_email body)) db
      then (Fail 400 "User already exists", db)
      else
        let organization :=
          Organization.create (default EmptyString (r_organizationName body)) in
        if negb (Organization.valid organization) || throws fault 1
        then (serverError, db)
        else
          let db :=
            set_organizations (<[oid := organization]> (organizations db)) db in
          if throws fault 2 then (serverError, db)
          else
            let user := firstUser now oid body in
            let db := set_users (<[uid := user]> (users db)) db in
            (Json (payload (uid, user)), db)
  end.

(** ** netlify/functions/users.js: the PUT and DELETE cases of the handler

    The function talks to the [users] table through the service-role client.
    [caller] is the account the bearer token of the request resolves to
    ([supabase.auth.getUser(token)], nothing for a token that is not valid),
    [path] is the request path after the function prefix. *)
Module Netlify.
Record UserRow := mkRow {
  email : string;
  first_name : string;
  last_name : string;
  role : string;
  organization_id : option Id;
  created_by : option Id;
  status : string;
  updated_at : Z
}.

Record OrgRow := mkOrg { max_users : Z; current_users : Z }.

Record Tables := mkTables {
  t_users : gmap Id UserRow;
  t_organizations : gmap Id OrgRow;
  t_auth : gset Id                      (* the accounts of the auth service *)
}.

Record UpdateBody := mkBody {
  firstName : option string;
  lastName : option string;
  newRole : option string;
  newStatus : option string
}.

Inductive Body :=
  | Row (data : option UserRow)         (* JSON.stringify(data[0]) *)
  | Success                             (* { success: true } *)
  | Error (error : string).             (* { error } *)

Record Response := mkResponse { statusCode : nat; body : Body }.

(** How [supabase.auth.admin.deleteUser] ends: the account is removed, the
    call returns an error (which the handler does not look at), or the
    client throws, as it does on an id it does not take for a UUID. *)
Inductive AuthResult :=
  | AuthDone
  | AuthError
  | AuthThrows (message : string).

(** [/^[0-9a-fA-F-]+$/.test(path)] *)
Definition isIdPath (path : string) : bool :=
  negb (String.eqb path EmptyString)
  && forallb (λ c, isHexDigit c || Ascii.eqb c "-"%char)
             (list_ascii_of_string path).

(** [.update({ first_name: firstName, ... })]: a key whose value is
    [undefined] is dropped from the payload and its column is kept. *)
Definition updateRow (now : Z) (b : UpdateBody) (r : UserRow) : UserRow :=
  {| email := email r;
     first_name := default (first_name r) (firstName b);
     last_name := default (last_name r) (lastName b);
     role := default (role r) (newRole b);
     organization_id := organization_id r;
     created_by := created_by r;
     status := default (status r) (newStatus b);
     updated_at := now |}.

Section Handler.
(** The stored procedures behind [supabase.rpc] are not part of the
    sources; they act on the organizations table. *)
Context (rpc : string → Id → gmap Id OrgRow → gmap Id OrgRow).

(** case [/^[0-9a-fA-F-]+$/.test(path) && event.httpMethod === 'PUT'] *)
Definition putUser (now : Z) (caller : option Id) (path : string)
    (b : UpdateBody) (db : Tables) : Response * Tables :=
  match caller with
  | None => (mkResponse 401 (Error "Invalid token"), db)
  | Some _ =>
      if negb (isIdPath path) then (mkResponse 404 (Error "Not Found"), db)
      else
        let userId := path in
        let rows := alter (updateRow now b) userId (t_users db) in
        (mkResponse 200 (Row (rows !! userId)),
         mkTables rows (t_organizations db) (t_auth db))
  end.

(** case [/^[0-9a-fA-F-]+$/.test(path) && event.httpMethod === 'DELETE'] *)
Definition deleteUser (caller : option Id) (path : string) (db : Tables)
  : Response * Tables :=
  match caller with
  | None => (mkResponse 401 (Error "Invalid token"), db)
  | Some _ =>
      if negb (isIdPath path) then (mkResponse 404 (Error "Not Found"), db)
      else
        let userId := path in
        (* Get user to check organization *)
        let userData := t_users db !! userId in
        (* Delete user *)
        let rows := delete userId (t_users db) in
        (* Update organization user count *)
        let orgs :=
          match userData ≫= organization_id with
          | Some org =>
              if String.eqb org EmptyString then t_organizations db
              else rpc "decrement_organization_users" org (t_organizations db)
          | None => t_organizations db
          end in
        (* Delete auth user *)
        (mkResponse 200 Success, mkTables rows orgs (t_auth db ∖ {[userId]}))
  end.

(** The same case with its error paths: [dbError] is the error the store
    returns for the delete, if any ([if (error) throw error]; the row is
    then still there), and [auth] is how the auth call ends. A throw is
    answered 500 with the message of the error. *)
Definition deleteUserIO (dbError : option string) (auth : AuthResult)
    (caller : option Id) (path : string) (db : Tables) : Response * Tables :=
  match caller with
  | None => (mkResponse 401 (Error "Invalid token"), db)
  | Some _ =>
      if negb (isIdPath path) then (mkResponse 404 (Error "Not Found"), db)
      else
        let userId := path in
        let userData := t_users db !! userId in
        match dbError with
        | Some message => (mkResponse 500 (Error message), db)
        | None =>
            let rows := delete userId (t_users db) in
            let orgs :=
              match userData ≫= organization_id with
              | Some org =>
                  if String.eqb org EmptyString then t_organizations db
                  else rpc "decrement_organization_users" org (t_organizations db)
              | None => t_organizations db
              end in
            match auth with
            | AuthDone =>
                (mkResponse 200 Success,
                 mkTables rows orgs (t_auth db ∖ {[userId]}))
            | AuthError =>
                (mkResponse 200 Success, mkTables rows orgs (t_auth db))
            | AuthThrows message =>
                (mkResponse 500 (Error message), mkTables rows orgs (t_auth db))
            end
        end
  end.
End Handler.
End Netlify.

(** ** The entitlement ceiling

    No handler computes it; the two measures below are the terms in which
    the ceiling is spoken of, read off the schemas: [isActive] of the users
    of an organization, [maxUsers] of the plan of its active subscription
    and, without one, [maxUsers] of the organization (default 5). *)
Definition activeUserCount (org : Id) (db : Store) : Z :=
  Z.of_nat (size (filter (λ d : UserDoc,
                            User.organizationId d.2 = org
                            ∧ User.isActive d.2 = true) (users db))).

Definition activePlan (org : Id) (db : Store) : option PricingPlan.t :=
  head (omap (λ d : Id * Subscription.t,
                if bool_decide (Subscription.organizationId d.2 = org
                                ∧ Subscription.status d.2 = sub_active)
                then plans db !! Subscription.planId d.2 else None)
             (map_to_list (subscriptions db))).

Definition maxUsersOf (org : Id) (db : Store) : Z :=
  match activePlan org db with
  | Some plan => PricingPlan.maxUsers plan
  | None => from_option Organization.maxUsers 5 (organizations db !! org)
  end.

(** ** A sample database: two tenants *)
Module Sample.
Definition acme : Id := "64b000000000000000000a01".
Definition globex : Id := "64b000000000000000000a02".

Definition alice : Id := "64b000000000000000000b01".   (* root admin of acme *)
Definition bob : Id := "64b000000000000000000b02".     (* agent of acme *)
Definition carol : Id := "64b000000000000000000b03".   (* customer of acme *)
Definition dave : Id := "64b000000000000000000b04".    (* customer of acme *)
Definition frank : Id := "64b000000000000000000b05".   (* agent of acme *)
Definition eve : Id := "64b000000000000000000b06".     (* root admin of globex *)
Definition mallory : Id := "64b000000000000000000b07". (* customer of globex *)

Definition account (mail : string) (r : Role) (org : Id) (parent : option Id)
  : User.t := User.mk mail "First" "Last" r org parent true 0.

Definition userTable : gmap Id User.t :=
  {[ alice := account "alice@acme.io" admin acme None;
     bob := account "bob@acme.io" agent acme (Some alice);
     carol := account "carol@acme.io" customer acme (Some alice);
     dave := account "dave@acme.io" customer acme (Some alice);
     frank := account "frank@acme.io" agent acme (Some alice);
     eve := account "eve@globex.io" admin globex None;
     mallory := account "mallory@globex.io" customer globex (Some eve) ]}.

Definition actorOf (i : Id) (r : Role) (org : Id) : Actor.t :=
  Actor.mk i "user@example.com" r org.
Definition aliceA := actorOf alice admin acme.
Definition bobA := actorOf bob agent acme.
Definition carolA := actorOf carol customer acme.
Definition daveA := actorOf dave customer acme.
Definition eveA := actorOf eve admin globex.
Definition malloryA := actorOf mallory customer globex.

Definition printer : Id := "64b000000000000000000d01". (* carol's, open *)
Definition invoice : Id := "64b000000000000000000d02". (* dave's, resolved *)
Definition vpn : Id := "64b000000000000000000d03".     (* mallory's, globex *)

Definition ticketTable : gmap Id Ticket.t :=
  {[ printer := Ticket.mk "Printer" "It jams" "hardware" medium open
                  carol None acme None 10;
     invoice := Ticket.mk "Invoice" "Wrong total" "billing" high resolved
                  dave (Some bob) acme (Some 7) 7;
     vpn := Ticket.mk "VPN" "No route" "network" low archived
                  mallory None globex None 3 ]}.

Definition r1 : Id := "64b000000000000000000e01".
Definition r2 : Id := "64b000000000000000000e02".
Definition r3 : Id := "64b000000000000000000e03".
Definition r4 : Id := "64b000000000000000000e04".
Definition r5 : Id := "64b000000000000000000e05".

Definition responseTable : gmap Id TicketResponse.t :=
  {[ r1 := TicketResponse.mk printer carol "Still jammed" false 11;
     r2 := TicketResponse.mk printer bob "Tray 2 is bent" true 12;
     r3 := TicketResponse.mk printer bob "We ordered a part" false 13;
     r4 := TicketResponse.mk invoice bob "Fixed" false 6 ]}.

Definition db : Store :=
  mkStore ticketTable responseTable userTable
    {[ acme := Organization.create "Acme"; globex := Organization.create "Globex" ]}
    ∅ ∅.

Definition say (text : string) (internal : bool) : ResponseBody :=
  mkResponseBody (Some text) (Some (JBool internal)).
Definition noChange : TicketUpdate := mkUpdate None None None None None None.
Definition setStatus (s : Status) : TicketUpdate :=
  mkUpdate None None (Some s) None None None.
Definition assign (u : Id) : TicketUpdate :=
  mkUpdate None None None None None (Some u).
End Sample.

(** The [users] table of the serverless function, for the same tenants. *)
Module NetlifySample.
Definition row (mail role : string) (org : Id) : Netlify.UserRow :=
  Netlify.mkRow mail "First" "Last" role (Some org) None "active" 0.

Definition tables : Netlify.Tables :=
  Netlify.mkTables
    {[ Sample.carol := row "carol@acme.io" "customer" Sample.acme;
       Sample.eve := row "eve@globex.io" "admin" Sample.globex ]}
    {[ Sample.acme := Netlify.mkOrg 5 1; Sample.globex := Netlify.mkOrg 5 1 ]}
    {[ Sample.carol; Sample.eve ]}.

Definition demote : Netlify.UpdateBody :=
  Netlify.mkBody None None (Some "customer") (Some "inactive").
End NetlifySample.

(** A sixth account for Acme. *)
Module QuotaSample.
Definition gina : Id := "64b000000000000000000b08".

(** A stand-in for the e-mail validator. *)
Definition isEmail (s : string) : bool :=
  existsb (Ascii.eqb "@"%char) (list_ascii_of_string s).

Definition ginaBody : SubuserBody :=
  mkSubuserBody (Some "gina@acme.io") (Some "secret1") (Some "Gina")
    (Some "Ford") (Some agent).
End QuotaSample.

(** Requests on the ticket [printer]. *)
Module UpdateSample.
(** Carol asks for more than a customer may change. *)
Definition greedy : TicketUpdate :=
  mkUpdate (Some "Printer again") None (Some archived) (Some urgent) None
    (Some Sample.bob).

Definition printerTicket : Ticket.t :=
  Ticket.mk "Printer" "It jams" "hardware" medium open Sample.carol None
    Sample.acme None 10.
End UpdateSample.

(** ** Terms of the properties *)

(** A reply that refuses the request: a validation error or a 4xx. *)
Definition refusal {A} (r : Reply A) : Prop :=
  match r with
  | Json _ => False
  | Fail code _ => code ≠ 500%nat
  | BadRequest _ => True
  end.

(** A reply that is not the success reply. *)
Definition denied {A} (r : Reply A) : Prop :=
  match r with
  | Json _ => False
  | _ => True
  end.

(** A ticket that carries a timestamp is resolved. *)
Definition stampedOnlyResolved (db : Store) : Prop :=
  ∀ id t, tickets db !! id = Some t →
          Ticket.resolvedAt t ≠ None → Ticket.status t = resolved.

(** A request that writes to a ticket, and the database it leaves. *)
Inductive Request :=
  | Update (now : Z) (user : Actor.t) (id : Id) (body : TicketUpdate)
  | Respond (now : Z) (rid : Id) (user : Actor.t) (id : Id) (body : ResponseBody).

Definition serve (db : Store) (r : Request) : Store :=
  match r with
  | Update now user id body => (updateTicket now user id body db).2
  | Respond now rid user id body => (addResponse now rid user id body db).2
  end.


(** The request with the fields a customer has no say in taken out. *)
Definition customerPart (body : TicketUpdate) : TicketUpdate :=
  mkUpdate (b_title body) (b_description body) None None (b_category body) None.

(** The query without a status filter and without a search term. *)
Definition everything : TicketQuery := mkQuery None None.

(** No two accounts share an e-mail address. *)
Definition uniqueEmails (db : Store) : Prop :=
  ∀ i j u v, users db !! i = Some u → users db !! j = Some v →
             User.email u = User.email v → i = j.

(** A request that writes to a user, and the database it leaves. *)
Inductive UserRequest :=
  | UpdateUser (now : Z) (user : Actor.t) (id : Id) (body : UserUpdate)
  | DeleteUser (user : Actor.t) (id : Id).

Definition serveUser (db : Store) (r : UserRequest) : Store :=
  match r with
  | UpdateUser now user id body => (updateUser now user id body db).2
  | DeleteUser user id => (deleteUser user id db).2
  end.

(** The ticket carries the status named in the query string. *)
Definition hasStatus (s : Status) (d : TicketDoc) : Prop := Ticket.status d.2 = s.

(** No account has the role superadmin. *)
Definition noSuperadmin (db : Store) : Prop :=
  ∀ i u, users db !! i = Some u → User.role u ≠ superadmin.

(** A request that writes to the users collection, account creation
    included, and the database it leaves. *)
Inductive AccountRequest :=
  | Change (r : UserRequest)
  | Subuser (now : Z) (uid : Id) (user : Actor.t) (body : SubuserBody)
  | Register (now : Z) (oid uid : Id) (body : RegisterBody).

Definition serveAccount (isEmail : string → bool) (db : Store)
    (r : AccountRequest) : Store :=
  match r with
  | Change r => serveUser db r
  | Subuser now uid user body => (createSubuser isEmail now uid user body db).2
  | Register now oid uid body => (register isEmail now oid uid body db).2
  end.

(** A registration and a run of account requests. *)
Module AccountSample.
Definition founder : RegisterBody :=
  mkRegisterBody (Some "zoe@initech.io") (Some "secret1") (Some "Zoe")
    (Some "Hall") (Some "  Initech ").
Definition initech : Id := "64b000000000000000000a03".
Definition zoe : Id := "64b000000000000000000b09".
Definition requests : list AccountRequest :=
  [Subuser 40 QuotaSample.gina Sample.aliceA QuotaSample.ginaBody;
   Register 41 initech zoe founder;
   Change (UpdateUser 42 Sample.aliceA Sample.bob
             (mkUserUpdate None None (Some superadmin) None));
   Change (DeleteUser Sample.aliceA Sample.carol)].
End AccountSample.

(** ** Properties *)

Lemma elem_of_merge_sort {A} (R : relation A) `{∀ x y, Decision (R x y)}
    (l : list A) (x : A) :
  x ∈ merge_sort R l ↔ x ∈ l.
Proof. by rewrite merge_sort_Permutation. Qed.

Lemma elem_of_List_filter {A} (f : A → bool) (l : list A) (x : A) :
  x ∈ List.filter f l ↔ x ∈ l ∧ f x = true.
Proof. rewrite !list_elem_of_In. apply filter_In. Qed.

Lemma authorize_admin user :
  authorize [admin] user =
    if bool_decide (Actor.role user = admin) then None
    else Some (403%nat, "Not authorized for this action").
Proof.
  unfold authorize. destruct (Actor.role user); reflexivity.
Qed.

(** *** Tenant isolation in the API server *)

(** X1. A ticket of another organization: reading it, updating it,
    responding to it and deleting it are refused and leave the database as
    it is, and the list never shows it. *)
Lemma foreign_ticket_refused textSearch now rid user id db ticket :
  tickets db !! id = Some ticket →
  Ticket.organizationId ticket ≠ Actor.organizationId user →
  getTicket user id db = Fail 403 "Not authorized to access this ticket"
  ∧ (∀ body, denied (updateTicket now user id body db).1
             ∧ (updateTicket now user id body db).2 = db)
  ∧ (∀ body, denied (addResponse now rid user id body db).1
             ∧ (addResponse now rid user id body db).2 = db)
  ∧ denied (deleteTicket user id db).1 ∧ (deleteTicket user id db).2 = db
  ∧ (∀ query l, listTickets textSearch user query db = Json l → (id, ticket) ∉ l).
Proof.
  intros Hid Horg.
  assert (Hno : noAccess user ticket = true).
  { unfold noAccess. rewrite bool_decide_eq_false_2 by done. done. }
  repeat split.
  - unfold getTicket. rewrite Hid. by rewrite bool_decide_eq_false_2 by done.
  - unfold updateTicket. destruct (validateTicketUpdate body); [|done].
    rewrite Hid. by rewrite bool_decide_eq_false_2 by done.
  - unfold updateTicket. destruct (validateTicketUpdate body); [|done].
    rewrite Hid. by rewrite bool_decide_eq_false_2 by done.
  - unfold addResponse. destruct (validateResponse body); [|done]. by rewrite Hid, Hno.
  - unfold addResponse. destruct (validateResponse body); [|done]. by rewrite Hid, Hno.
  - unfold deleteTicket. destruct (authorize _ _) as [[??]|]; [done|].
    rewrite Hid. by rewrite bool_decide_eq_false_2 by done.
  - unfold deleteTicket. destruct (authorize _ _) as [[??]|]; [done|].
    rewrite Hid. by rewrite bool_decide_eq_false_2 by done.
  - intros query l [= <-] Hin.
    apply elem_of_merge_sort, elem_of_List_filter in Hin as [_ Hm].
    unfold matches, buildFilter in Hm; simpl in Hm.
    rewrite bool_decide_eq_false_2 in Hm by done. done.
Qed.

(** X2. A user of another organization: reading, updating and deleting the
    account are refused and leave the database as it is, and the list of
    users never shows it. *)
Lemma foreign_user_refused now user id db u :
  users db !! id = Some u →
  User.organizationId u ≠ Actor.organizationId user →
  denied (getUser user id db)
  ∧ (∀ body, denied (updateUser now user id body db).1
             ∧ (updateUser now user id body db).2 = db)
  ∧ denied (deleteUser user id db).1 ∧ (deleteUser user id db).2 = db
  ∧ (∀ l, listUsers user db = Json l → (id, u) ∉ l).
Proof.
  intros Hid Horg. repeat split.
  - unfold getUser. destruct (authorize _ _) as [[??]|]; [done|].
    rewrite Hid. by rewrite bool_decide_eq_false_2 by done.
  - unfold updateUser. destruct (authorize _ _) as [[??]|]; [done|].
    destruct (validateUserUpdate body); [|done].
    rewrite Hid. by rewrite bool_decide_eq_false_2 by done.
  - unfold updateUser. destruct (authorize _ _) as [[??]|]; [done|].
    destruct (validateUserUpdate body); [|done].
    rewrite Hid. by rewrite bool_decide_eq_false_2 by done.
  - unfold deleteUser. destruct (authorize _ _) as [[??]|]; [done|].
    rewrite Hid. by rewrite bool_decide_eq_false_2 by done.
  - unfold deleteUser. destruct (authorize _ _) as [[??]|]; [done|].
    rewrite Hid. by rewrite bool_decide_eq_false_2 by done.
  - unfold listUsers. destruct (authorize _ _) as [[??]|]; [done|].
    intros l [= <-] Hin.
    apply elem_of_map_to_list, map_lookup_filter_Some in Hin as [_ Hin].
    by simpl in Hin.
Qed.

(** *** Tenant isolation in the serverless users function *)

(** Neither case looks at the caller or at the organization of the row. *)
Lemma netlify_put_delete_unchecked rpc now caller path b db :
  Netlify.isIdPath path = true →
  Netlify.statusCode (Netlify.deleteUser rpc (Some caller) path db).1 = 200%nat
  ∧ Netlify.t_users (Netlify.deleteUser rpc (Some caller) path db).2 !! path = None
  ∧ Netlify.statusCode (Netlify.putUser now (Some caller) path b db).1 = 200%nat
  ∧ Netlify.t_users (Netlify.putUser now (Some caller) path b db).2 !! path
    = Netlify.updateRow now b <$> Netlify.t_users db !! path.
Proof.
  intros Hp. unfold Netlify.deleteUser, Netlify.putUser. rewrite Hp. simpl.
  split; [done|]. split; [apply lookup_delete_eq|]. split; [done|].
  by rewrite lookup_alter_eq.
Qed.

(** C1 (failing input). Carol, a customer of Acme, sends DELETE and PUT for
    the row of Eve, the admin of Globex, to the serverless users function:
    both are answered 200, the row of Eve is deleted, respectively rewritten,
    where tenant isolation asks for a denial. *)
Theorem netlify_users_cross_tenant rpc :
  (Netlify.t_users NetlifySample.tables !! Sample.carol ≫= Netlify.organization_id
     = Some Sample.acme
   ∧ Netlify.t_users NetlifySample.tables !! Sample.eve ≫= Netlify.organization_id
     = Some Sample.globex)
  ∧ (Netlify.statusCode
       (Netlify.deleteUser rpc (Some Sample.carol) Sample.eve NetlifySample.tables).1
     = 200%nat
     ∧ Netlify.t_users
         (Netlify.deleteUser rpc (Some Sample.carol) Sample.eve NetlifySample.tables).2
       !! Sample.eve = None)
  ∧ (Netlify.putUser 9 (Some Sample.carol) Sample.eve NetlifySample.demote
       NetlifySample.tables).1
    = Netlify.mkResponse 200
        (Netlify.Row (Some (Netlify.mkRow "eve@globex.io" "First" "Last" "customer"
                              (Some Sample.globex) None "inactive" 9))).
Proof.
  split; [split; vm_compute; reflexivity|].
  split; [split; [reflexivity | apply lookup_delete_eq]|].
  vm_compute. reflexivity.
Qed.

(** *** The resolved timestamp *)

(** The status branch stores the new status before it compares it: the
    stamp [now] is never written. *)
Lemma applyStatus_resolved now ticket :
  applyStatus now (Some resolved) ticket = Ticket.set_status resolved ticket.
Proof. reflexivity. Qed.

Lemma applyStatus_other now s ticket :
  s ≠ resolved →
  applyStatus now (Some s) ticket
  = Ticket.set_resolvedAt None (Ticket.set_status s ticket).
Proof.
  intros Hs. unfold applyStatus.
  rewrite (bool_decide_eq_false_2 (s = resolved)) by done. reflexivity.
Qed.

(** C2 (failing input). Alice, admin of Acme, updates the open ticket
    [printer] with status resolved at time 20: the ticket is saved with
    status resolved and [resolvedAt] still null. *)
Theorem resolve_keeps_resolvedAt_null :
  Ticket.status <$> tickets Sample.db !! Sample.printer = Some open
  ∧ ∃ t,
      updateTicket 20 Sample.aliceA Sample.printer (Sample.setStatus resolved)
        Sample.db
      = (Json t, set_tickets (<[Sample.printer := t]> (tickets Sample.db)) Sample.db)
      ∧ Ticket.status t = resolved
      ∧ Ticket.resolvedAt t = None.
Proof.
  split; [vm_compute; reflexivity|].
  eexists. split; [vm_compute; reflexivity|]. split; reflexivity.
Qed.

(** One half of the invariant does hold along every sequence of updates and
    responses: a ticket that carries a timestamp is resolved. *)

Lemma staffFields_stamp now body t :
  Ticket.resolvedAt (staffFields now body t) ≠ None →
  (Ticket.resolvedAt t ≠ None ∧ b_status body = None
   ∨ b_status body = Some resolved).
Proof.
  unfold staffFields, applyAssignedTo, applyPriority.
  destruct (truthy (b_assignedTo body)), (b_priority body),
    (b_status body) as [[]|]; simpl; intros Hst;
    first [by right | by left | by destruct Hst].
Qed.

Lemma staffFields_status now body t :
  Ticket.status (staffFields now body t)
  = default (Ticket.status t) (b_status body).
Proof.
  unfold staffFields, applyAssignedTo, applyPriority.
  destruct (truthy (b_assignedTo body)), (b_priority body),
    (b_status body) as [[]|]; reflexivity.
Qed.

Lemma serve_stampedOnlyResolved db r :
  stampedOnlyResolved db → stampedOnlyResolved (serve db r).
Proof.
  intros Hdb. destruct r as [now user id body | now rid user id body]; simpl.
  - unfold updateTicket. destruct (validateTicketUpdate body); [|done].
    destruct (tickets db !! id) as [t|] eqn:Hid; [|done].
    destruct (negb _); [done|].
    destruct (bool_decide (Actor.role user = customer)).
    + destruct (negb _); [done|].
      intros k t'; simpl. rewrite lookup_insert.
      case_decide; [|by apply Hdb]. intros [= <-]. simpl. exact (Hdb _ _ Hid).
    + intros k t'; simpl. rewrite lookup_insert.
      case_decide; [|by apply Hdb]. intros [= <-]. simpl.
      intros Hst. rewrite staffFields_status.
      apply staffFields_stamp in Hst as [[Hst Hb]|Hb]; rewrite Hb; simpl;
        [exact (Hdb _ _ Hid Hst) | done].
  - unfold addResponse. destruct (validateResponse body); [|done].
    destruct (tickets db !! id) as [t|] eqn:Hid; [|done].
    destruct (noAccess user t); [done|].
    case_bool_decide; [|by apply Hdb].
    intros k t'; simpl. rewrite lookup_insert.
    case_decide; [|by apply Hdb]. by intros [= <-].
Qed.

(** X3. Along every sequence of ticket updates and responses, a ticket that
    carries a [resolvedAt] timestamp has status resolved, provided this holds
    at the start. *)
Lemma run_stampedOnlyResolved (rs : list Request) db :
  stampedOnlyResolved db → stampedOnlyResolved (foldl serve db rs).
Proof.
  revert db. induction rs as [|r rs IH]; intros db Hdb; simpl; [done|].
  by apply IH, serve_stampedOnlyResolved.
Qed.

(** *** Reopen on response *)

(** Every actor that passes the access test gets its well-formed response
    stored, whatever its role. *)
Lemma addResponse_accepted now rid user id body db ticket :
  tickets db !! id = Some ticket →
  noAccess user ticket = false →
  validateResponse body = [] →
  ∃ reply, (addResponse now rid user id body db).1 = Json (rid, reply)
           ∧ responses (addResponse now rid user id body db).2 !! rid = Some reply.
Proof.
  intros Hid Hacc Hc. unfold addResponse. rewrite Hc, Hid, Hacc.
  eexists. split; [reflexivity|].
  case_bool_decide; simpl; apply lookup_insert_eq.
Qed.

Lemma closed_status (s : Status) :
  s ∈ [resolved; archived] ↔ s = resolved ∨ s = archived.
Proof. set_unfold. tauto. Qed.

(** C3. A response that is stored on a resolved or archived ticket leaves the
    ticket open with [resolvedAt] null, for every responder; on a ticket in
    any other status it leaves status and [resolvedAt] as they were. *)
Theorem reopen_on_response now rid user id body db ticket reply db' :
  tickets db !! id = Some ticket →
  addResponse now rid user id body db = (Json reply, db') →
  ∃ ticket',
    tickets db' !! id = Some ticket'
    ∧ (Ticket.status ticket = resolved ∨ Ticket.status ticket = archived →
       Ticket.status ticket' = open ∧ Ticket.resolvedAt ticket' = None)
    ∧ (Ticket.status ticket ≠ resolved ∧ Ticket.status ticket ≠ archived →
       Ticket.status ticket' = Ticket.status ticket
       ∧ Ticket.resolvedAt ticket' = Ticket.resolvedAt ticket).
Proof.
  intros Hid. unfold addResponse.
  destruct (validateResponse body); [|done]. rewrite Hid.
  destruct (noAccess user ticket); [done|].
  case_bool_decide as Hst; rewrite closed_status in Hst;
    intros [= _ <-]; simpl.
  - eexists. split; [apply lookup_insert_eq|]. split; [done|]. tauto.
  - exists ticket. split; [done|]. split; [tauto | done].
Qed.

Lemma reopen_on_response_witness :
  ∃ ticket',
    tickets (addResponse 30 Sample.r5 Sample.daveA Sample.invoice
               (Sample.say "Still wrong" false) Sample.db).2
      !! Sample.invoice = Some ticket'
    ∧ (resolved = resolved ∨ resolved = archived →
       Ticket.status ticket' = open ∧ Ticket.resolvedAt ticket' = None)
    ∧ (resolved ≠ resolved ∧ resolved ≠ archived →
       Ticket.status ticket' = resolved ∧ Ticket.resolvedAt ticket' = Some 7).
Proof.
  apply (reopen_on_response 30 Sample.r5 Sample.daveA Sample.invoice
           (Sample.say "Still wrong" false) Sample.db
           (Ticket.mk "Invoice" "Wrong total" "billing" high resolved
              Sample.dave (Some Sample.bob) Sample.acme (Some 7) 7)
           (Sample.r5,
            TicketResponse.mk Sample.invoice Sample.dave "Still wrong" false 30)).
  - vm_compute. reflexivity.
  - vm_compute. reflexivity.
Defined.

(** *** The root admin *)

(** The update route has no such guard: an admin of the organization can
    deactivate any account of it, the one without [parentUserId] included. *)
Lemma deactivation_unguarded now user id db u :
  users db !! id = Some u →
  Actor.role user = admin →
  User.organizationId u = Actor.organizationId user →
  ∃ u', updateUser now user id (mkUserUpdate None None None (Some false)) db
        = (Json u', set_users (<[id := u']> (users db)) db)
        ∧ User.isActive u' = false
        ∧ User.parentUserId u' = User.parentUserId u.
Proof.
  intros Hid Hrole Horg. unfold updateUser. rewrite authorize_admin.
  rewrite (bool_decide_eq_true_2 _ Hrole). simpl. rewrite Hid.
  rewrite (bool_decide_eq_true_2 _ Horg). simpl. by eexists.
Qed.

(** C4 (counterexample). Alice is the root admin of Acme. Bob, an agent of
    Acme, asks to delete her: the reply is the role denial of the middleware,
    not the protected-account error. Alice's own request to deactivate her
    account is carried out. *)
Lemma root_admin_not_protected_for_every_actor :
  (User.parentUserId <$> users Sample.db !! Sample.alice = Some None
   ∧ User.role <$> users Sample.db !! Sample.alice = Some admin)
  ∧ deleteUser Sample.bobA Sample.alice Sample.db
    = (Fail 403 "Not authorized for this action", Sample.db)
  ∧ ∃ u,
      (updateUser 20 Sample.aliceA Sample.alice
         (mkUserUpdate None None None (Some false)) Sample.db).1 = Json u
      ∧ User.isActive u = false
      ∧ users (updateUser 20 Sample.aliceA Sample.alice
                 (mkUserUpdate None None None (Some false)) Sample.db).2
          !! Sample.alice = Some u.
Proof.
  split; [split; vm_compute; reflexivity|].
  split; [vm_compute; reflexivity|].
  eexists. split; [vm_compute; reflexivity|].
  split; [reflexivity | vm_compute; reflexivity].
Qed.

(** C4 (amended). A delete request for an account without [parentUserId]
    is refused for every actor and leaves the database as it is: an admin of
    the account's organization is told that the main admin account cannot be
    deleted, an admin of another organization gets the tenant denial, and
    every other role the role denial. *)
Theorem root_admin_delete_refused user id db u :
  users db !! id = Some u →
  User.parentUserId u = None →
  deleteUser user id db
  = (if bool_decide (Actor.role user = admin)
     then if bool_decide (User.organizationId u = Actor.organizationId user)
          then Fail 400 "Cannot delete the main admin account"
          else Fail 403 "Not authorized to delete this user"
     else Fail 403 "Not authorized for this action",
     db).
Proof.
  intros Hid Hroot. unfold deleteUser. rewrite authorize_admin.
  case_bool_decide; [|done]. rewrite Hid.
  case_bool_decide; simpl; [|done]. by rewrite Hroot.
Qed.

Lemma root_admin_delete_refused_witness :
  deleteUser Sample.aliceA Sample.alice Sample.db
  = (if bool_decide (Actor.role Sample.aliceA = admin)
     then if bool_decide
               (User.organizationId (Sample.account "alice@acme.io" admin Sample.acme None)
                = Actor.organizationId Sample.aliceA)
          then Fail 400 "Cannot delete the main admin account"
          else Fail 403 "Not authorized to delete this user"
     else Fail 403 "Not authorized for this action",
     Sample.db).
Proof.
  apply (root_admin_delete_refused Sample.aliceA Sample.alice Sample.db
           (Sample.account "alice@acme.io" admin Sample.acme None)).
  - vm_compute. reflexivity.
  - reflexivity.
Defined.

(** *** The entitlement ceiling *)

(** C5 (counterexample). Acme has five active users and a ceiling of five
    (no subscription, [maxUsers] at its default). Alice, its admin, posts a
    new agent: the subuser is created and Acme has six active users. *)
Lemma quota_not_enforced :
  activeUserCount Sample.acme Sample.db = 5
  ∧ maxUsersOf Sample.acme Sample.db = 5
  ∧ (createSubuser QuotaSample.isEmail 40 QuotaSample.gina Sample.aliceA
       QuotaSample.ginaBody Sample.db).1
    = Json ("Subuser created successfully", QuotaSample.gina)
  ∧ activeUserCount Sample.acme
      (createSubuser QuotaSample.isEmail 40 QuotaSample.gina Sample.aliceA
         QuotaSample.ginaBody Sample.db).2 = 6.
Proof. repeat split; vm_compute; reflexivity. Qed.

(** C5 (amended). Creating a subuser consults no ceiling: the reply does not
    depend on the organizations, subscriptions and plans of the database, and
    an admin with a valid body and an unused e-mail address always gets the
    account created, in the admin's organization and with the admin as parent.
    A request that is refused (role, validation, address already in use)
    persists nothing. *)
Theorem subuser_creation_unmetered isEmail now uid user body db :
  (∀ orgs subs pls,
     (createSubuser isEmail now uid user body
        (mkStore (tickets db) (responses db) (users db) orgs subs pls)).1
     = (createSubuser isEmail now uid user body db).1)
  ∧ (Actor.role user = admin →
     validateSubuser isEmail body = [] →
     emailTaken (default EmptyString (s_email body)) db = false →
     createSubuser isEmail now uid user body db
     = (Json ("Subuser created successfully", uid),
        set_users
          (<[uid := newSubuser now user (default EmptyString (s_email body))
                      (default EmptyString (s_firstName body))
                      (default EmptyString (s_lastName body))
                      (default customer (s_role body))]> (users db)) db))
  ∧ (denied (createSubuser isEmail now uid user body db).1 →
     (createSubuser isEmail now uid user body db).2 = db).
Proof.
  unfold createSubuser. rewrite authorize_admin. repeat split.
  - intros orgs subs pls. case_bool_decide; [|done].
    destruct (validateSubuser isEmail body); [|done].
    unfold emailTaken; simpl. by destruct (existsb _ _).
  - intros Hrole Hval Hfree. rewrite bool_decide_eq_true_2 by done.
    by rewrite Hval, Hfree.
  - case_bool_decide; [|done].
    destruct (validateSubuser isEmail body); [|done].
    by destruct (emailTaken _ db).
Qed.

Lemma subuser_creation_unmetered_witness :
  createSubuser QuotaSample.isEmail 40 QuotaSample.gina Sample.aliceA
    QuotaSample.ginaBody Sample.db
  = (Json ("Subuser created successfully", QuotaSample.gina),
     set_users
       (<[QuotaSample.gina :=
            newSubuser 40 Sample.aliceA "gina@acme.io" "Gina" "Ford" agent]>
          (users Sample.db)) Sample.db).
Proof.
  apply (subuser_creation_unmetered QuotaSample.isEmail 40 QuotaSample.gina
           Sample.aliceA QuotaSample.ginaBody Sample.db).
  - reflexivity.
  - vm_compute. reflexivity.
  - vm_compute. reflexivity.
Defined.

(** *** Internal notes *)






(** The route itself never gets as far as the filter for a customer: with
    [createdBy] populated the access test refuses every customer, so a
    ticket is sent only to the other roles, with all its responses. *)
Lemma getTicket_Json user id db ticket sent :
  getTicket user id db = Json (ticket, sent) →
  tickets db !! id = Some ticket
  ∧ Ticket.organizationId ticket = Actor.organizationId user
  ∧ Actor.role user ≠ customer
  ∧ sent = findResponses id db.
Proof.
  unfold getTicket. destruct (tickets db !! id) as [t|]; [|done].
  case_bool_decide as Horg; simpl; [|done].
  case_bool_decide as Hrole.
  - by destruct (users db !! Ticket.createdBy t).
  - intros [= <- <-]. unfold filteredResponses.
    by rewrite (bool_decide_eq_false_2 _ Hrole).
Qed.

Lemma getTicket_staff user id db ticket :
  tickets db !! id = Some ticket →
  Ticket.organizationId ticket = Actor.organizationId user →
  Actor.role user ≠ customer →
  getTicket user id db = Json (ticket, findResponses id db).
Proof.
  intros Hid Horg Hrole. unfold getTicket, filteredResponses. rewrite Hid.
  rewrite (bool_decide_eq_true_2 _ Horg). simpl.
  by rewrite (bool_decide_eq_false_2 _ Hrole).
Qed.

Lemma getTicket_customer user id db :
  Actor.role user = customer → denied (getTicket user id db).
Proof.
  intros Hrole. unfold getTicket. destruct (tickets db !! id) as [t|]; [|done].
  case_bool_decide; simpl; [|done]. rewrite (bool_decide_eq_true_2 _ Hrole).
  by destruct (users db !! Ticket.createdBy t).
Qed.

(** *** Updates by a customer *)

Lemma validate_customerPart body :
  validateTicketUpdate body = [] → validateTicketUpdate (customerPart body) = [].
Proof.
  unfold validateTicketUpdate; simpl. intros H.
  apply app_eq_nil in H as [-> H]. apply app_eq_nil in H as [-> _]. done.
Qed.

Lemma updateTicket_customer now user id body db ticket :
  Actor.role user = customer →
  tickets db !! id = Some ticket →
  updateTicket now user id body db
  = match validateTicketUpdate body with
    | (_ :: _) as errors => (BadRequest errors, db)
    | [] =>
        if bool_decide (Ticket.organizationId ticket = Actor.organizationId user
                        ∧ Ticket.createdBy ticket = Actor.id user)
        then
          let t' := Ticket.set_updatedAt now (customerFields body ticket) in
          (Json t', set_tickets (<[id := t']> (tickets db)) db)
        else (Fail 403 "Not authorized to update this ticket", db)
    end.
Proof.
  intros Hrole Hid. unfold updateTicket.
  destruct (validateTicketUpdate body); [|done]. rewrite Hid.
  rewrite (bool_decide_eq_true_2 (Actor.role user = customer)) by done.
  repeat case_bool_decide; simpl; tauto || done.
Qed.

(** C7. A customer's update goes through only on a ticket of the customer's
    organization that the customer created, and is refused otherwise. When
    it goes through, priority, status, [assignedTo], [createdBy],
    organization and [resolvedAt] keep their values (title, description and
    category take the values sent, [updatedAt] the time of the request) and
    no other ticket is written. A well-formed request is answered exactly as
    the same request without status, priority and [assignedTo]: they are
    ignored, not refused. *)
Theorem customer_update_restricted now user id body db ticket :
  Actor.role user = customer →
  tickets db !! id = Some ticket →
  (Ticket.createdBy ticket ≠ Actor.id user
   ∨ Ticket.organizationId ticket ≠ Actor.organizationId user →
   denied (updateTicket now user id body db).1
   ∧ (updateTicket now user id body db).2 = db)
  ∧ (∀ t' db',
       updateTicket now user id body db = (Json t', db') →
       Ticket.priority t' = Ticket.priority ticket
       ∧ Ticket.status t' = Ticket.status ticket
       ∧ Ticket.assignedTo t' = Ticket.assignedTo ticket
       ∧ Ticket.createdBy t' = Ticket.createdBy ticket
       ∧ Ticket.organizationId t' = Ticket.organizationId ticket
       ∧ Ticket.resolvedAt t' = Ticket.resolvedAt ticket
       ∧ Ticket.title t' = assignIf (b_title body) (Ticket.title ticket)
       ∧ Ticket.description t'
         = assignIf (b_description body) (Ticket.description ticket)
       ∧ Ticket.category t' = assignIf (b_category body) (Ticket.category ticket)
       ∧ db' = set_tickets (<[id := t']> (tickets db)) db)
  ∧ (validateTicketUpdate body = [] →
     updateTicket now user id body db
     = updateTicket now user id (customerPart body) db
     ∧ (Ticket.createdBy ticket = Actor.id user →
        Ticket.organizationId ticket = Actor.organizationId user →
        ∃ t', (updateTicket now user id body db).1 = Json t')).
Proof.
  intros Hrole Hid.
  rewrite !(updateTicket_customer now user id _ db ticket Hrole Hid).
  split; [|split].
  - intros Hnot. destruct (validateTicketUpdate body); [|done].
    rewrite bool_decide_eq_false_2 by tauto. done.
  - intros t' db'. destruct (validateTicketUpdate body); [|done].
    case_bool_decide; [|done]. intros [= <- <-]. done.
  - intros Hval. rewrite (validate_customerPart body Hval), Hval. split.
    + case_bool_decide; done.
    + intros Hown Horg. rewrite bool_decide_eq_true_2 by done. by eexists.
Qed.

Lemma customer_update_restricted_witness :
  updateTicket 20 Sample.carolA Sample.printer UpdateSample.greedy Sample.db
  = updateTicket 20 Sample.carolA Sample.printer
      (customerPart UpdateSample.greedy) Sample.db
  ∧ ∃ t',
      (updateTicket 20 Sample.carolA Sample.printer UpdateSample.greedy
         Sample.db).1 = Json t'.
Proof.
  destruct (customer_update_restricted 20 Sample.carolA Sample.printer
              UpdateSample.greedy Sample.db UpdateSample.printerTicket)
    as (_ & _ & Hignored).
  - reflexivity.
  - vm_compute. reflexivity.
  - destruct Hignored as [Hsame Hok]; [reflexivity|].
    split; [exact Hsame | apply Hok; reflexivity].
Defined.

Example carol_update_ignores_status :
  (updateTicket 20 Sample.carolA Sample.printer UpdateSample.greedy Sample.db).1
  = Json (Ticket.mk "Printer again" "It jams" "hardware" medium open
            Sample.carol None Sample.acme None 20).
Proof. vm_compute. reflexivity. Qed.

(** *** Assignment *)

Lemma isMongoId_truthy a : isMongoId a = true → truthy (Some a) = true.
Proof. by destruct a. Qed.

(** C8 (counterexample). Bob, an agent of Acme, assigns the ticket
    [printer] to Mallory, a customer of Globex: the update is accepted and
    the ticket is saved with Mallory as assignee. *)
Lemma assignee_not_checked :
  (User.role <$> users Sample.db !! Sample.mallory = Some customer
   ∧ User.organizationId <$> users Sample.db !! Sample.mallory = Some Sample.globex
   ∧ Ticket.organizationId <$> tickets Sample.db !! Sample.printer = Some Sample.acme)
  ∧ ∃ t,
      (updateTicket 20 Sample.bobA Sample.printer (Sample.assign Sample.mallory)
         Sample.db).1 = Json t
      ∧ Ticket.assignedTo t = Some Sample.mallory
      ∧ tickets (updateTicket 20 Sample.bobA Sample.printer
                   (Sample.assign Sample.mallory) Sample.db).2
          !! Sample.printer = Some t.
Proof.
  split; [repeat split; vm_compute; reflexivity|].
  eexists. split; [vm_compute; reflexivity|].
  split; [reflexivity | vm_compute; reflexivity].
Qed.

(** C8 (amended). [assignedTo] is written only for an actor that is not a
    customer: a customer's update leaves it as it was. For every other actor
    of the ticket's organization a well-formed update (the assignee is a
    string of 24 hexadecimal digits) is accepted and stores the assignee as
    sent; the reply does not depend on the users of the database, so neither
    the organization nor the role of the assignee is looked at. *)
Theorem assignment_unchecked now user id body db ticket a :
  tickets db !! id = Some ticket →
  b_assignedTo body = Some a →
  (Actor.role user = customer →
   ∀ t' db', updateTicket now user id body db = (Json t', db') →
             Ticket.assignedTo t' = Ticket.assignedTo ticket)
  ∧ (Actor.role user ≠ customer →
     Ticket.organizationId ticket = Actor.organizationId user →
     validateTicketUpdate body = [] →
     ∃ t', updateTicket now user id body db
           = (Json t', set_tickets (<[id := t']> (tickets db)) db)
           ∧ Ticket.assignedTo t' = Some a)
  ∧ (∀ us, (updateTicket now user id body (set_users us db)).1
           = (updateTicket now user id body db).1).
Proof.
  intros Hid Ha. split; [|split].
  - intros Hrole t' db'.
    rewrite (updateTicket_customer now user id _ db ticket Hrole Hid).
    destruct (validateTicketUpdate body); [|done].
    case_bool_decide; [|done]. by intros [= <- _].
  - intros Hrole Horg Hval. unfold updateTicket. rewrite Hval, Hid.
    rewrite (bool_decide_eq_true_2 _ Horg); simpl.
    rewrite (bool_decide_eq_false_2 _ Hrole).
    eexists. split; [reflexivity|]. simpl.
    unfold staffFields, applyAssignedTo. rewrite Ha.
    assert (Hm : isMongoId a = true).
    { unfold validateTicketUpdate in Hval. rewrite Ha in Hval.
      apply app_eq_nil in Hval as [_ Hval]. apply app_eq_nil in Hval as [_ Hval].
      by destruct (isMongoId a). }
    by rewrite (isMongoId_truthy a Hm).
  - intros us. unfold updateTicket; simpl.
    destruct (validateTicketUpdate body); [|done]. rewrite Hid.
    repeat (case_bool_decide; simpl; try done).
Qed.

Lemma assignment_unchecked_witness :
  ∃ t',
    updateTicket 20 Sample.bobA Sample.printer (Sample.assign Sample.mallory)
      Sample.db
    = (Json t', set_tickets (<[Sample.printer := t']> (tickets Sample.db)) Sample.db)
    ∧ Ticket.assignedTo t' = Some Sample.mallory.
Proof.
  destruct (assignment_unchecked 20 Sample.bobA Sample.printer
              (Sample.assign Sample.mallory) Sample.db
              UpdateSample.printerTicket Sample.mallory)
    as (_ & Hstaff & _).
  - vm_compute. reflexivity.
  - reflexivity.
  - apply Hstaff; [discriminate | reflexivity | vm_compute; reflexivity].
Defined.

(** *** The ticket list *)

(** What the list holds, for any query. *)
Lemma listTickets_spec textSearch user query db :
  ∃ l, listTickets textSearch user query db = Json l
       ∧ ∀ d : TicketDoc,
           d ∈ l ↔ tickets db !! d.1 = Some d.2
                   ∧ matches textSearch (buildFilter user query) d = true.
Proof.
  eexists. split; [reflexivity|]. intros [k t]. simpl.
  by rewrite elem_of_merge_sort, elem_of_List_filter, elem_of_map_to_list.
Qed.

Lemma matches_scope textSearch user query d :
  matches textSearch (buildFilter user query) d = true →
  Ticket.organizationId d.2 = Actor.organizationId user
  ∧ (Actor.role user = customer → Ticket.createdBy d.2 = Actor.id user).
Proof.
  unfold matches, buildFilter; simpl. rewrite !andb_true_iff.
  intros [[[Horg Hby] _] _]. apply bool_decide_eq_true_1 in Horg.
  split; [done|]. intros Hrole.
  rewrite (bool_decide_eq_true_2 _ Hrole) in Hby.
  by apply bool_decide_eq_true_1 in Hby.
Qed.

Lemma matches_everything textSearch user d :
  matches textSearch (buildFilter user everything) d = true
  ↔ Ticket.organizationId d.2 = Actor.organizationId user
    ∧ (Actor.role user = customer → Ticket.createdBy d.2 = Actor.id user).
Proof.
  split; [apply matches_scope|].
  unfold matches, buildFilter; simpl. intros [Horg Hby].
  rewrite (bool_decide_eq_true_2 _ Horg); simpl.
  case_bool_decide; [|done]. by rewrite bool_decide_eq_true_2 by auto.
Qed.

(** C9. The list a customer gets holds a ticket exactly when the ticket is
    in the customer's organization and was created by the customer: with a
    status filter or a search term in the query the list only gets shorter.
    Every other role gets every ticket of its organization. *)
Theorem customer_list_scoped textSearch user db :
  (∀ query l d,
     listTickets textSearch user query db = Json l → d ∈ l →
     tickets db !! d.1 = Some d.2
     ∧ Ticket.organizationId d.2 = Actor.organizationId user
     ∧ (Actor.role user = customer → Ticket.createdBy d.2 = Actor.id user))
  ∧ ∃ l,
      listTickets textSearch user everything db = Json l
      ∧ (Actor.role user = customer →
         ∀ d : TicketDoc,
           d ∈ l ↔ tickets db !! d.1 = Some d.2
                   ∧ Ticket.organizationId d.2 = Actor.organizationId user
                   ∧ Ticket.createdBy d.2 = Actor.id user)
      ∧ (Actor.role user ≠ customer →
         ∀ d : TicketDoc,
           d ∈ l ↔ tickets db !! d.1 = Some d.2
                   ∧ Ticket.organizationId d.2 = Actor.organizationId user).
Proof.
  split.
  - intros query l d Hl Hd.
    destruct (listTickets_spec textSearch user query db) as (l' & Hl' & Hin).
    rewrite Hl in Hl'. injection Hl' as ->.
    apply Hin in Hd as [Hd Hm]. split; [done|]. by eapply matches_scope.
  - destruct (listTickets_spec textSearch user everything db) as (l & Hl & Hin).
    exists l. split; [done|].
    split; intros Hrole d; rewrite Hin, matches_everything; tauto.
Qed.

Lemma customer_list_scoped_witness :
  tickets Sample.db !! Sample.printer = Some UpdateSample.printerTicket
  ∧ Ticket.organizationId UpdateSample.printerTicket
    = Actor.organizationId Sample.carolA
  ∧ (Actor.role Sample.carolA = customer →
     Ticket.createdBy UpdateSample.printerTicket = Actor.id Sample.carolA).
Proof.
  destruct (customer_list_scoped (λ _ _, true) Sample.carolA Sample.db)
    as [Honly _].
  apply (Honly everything [(Sample.printer, UpdateSample.printerTicket)]
           (Sample.printer, UpdateSample.printerTicket)).
  - vm_compute. reflexivity.
  - apply list_elem_of_here.
Defined.

Example carol_sees_her_ticket :
  listTickets (λ _ _, true) Sample.carolA everything Sample.db
  = Json [(Sample.printer, UpdateSample.printerTicket)].
Proof. vm_compute. reflexivity. Qed.

Example bob_sees_acme :
  ∃ l, listTickets (λ _ _, true) Sample.bobA everything Sample.db = Json l
       ∧ l.*1 = [Sample.printer; Sample.invoice].
Proof. eexists. split; vm_compute; reflexivity. Qed.

(** *** Deleting a ticket *)

(** C10. A ticket delete that succeeds was asked by an admin of the ticket's
    organization; afterwards the ticket is gone, every other ticket is as it
    was, the responses left are exactly those of other tickets, unchanged,
    and users, organizations, subscriptions and plans are untouched. *)
Theorem delete_cascades user id db msg db' :
  deleteTicket user id db = (Json msg, db') →
  Actor.role user = admin
  ∧ (∃ ticket, tickets db !! id = Some ticket
               ∧ Ticket.organizationId ticket = Actor.organizationId user)
  ∧ tickets db' !! id = None
  ∧ (∀ k, k ≠ id → tickets db' !! k = tickets db !! k)
  ∧ (∀ rid r, responses db' !! rid = Some r
              ↔ responses db !! rid = Some r ∧ TicketResponse.ticketId r ≠ id)
  ∧ users db' = users db
  ∧ organizations db' = organizations db
  ∧ subscriptions db' = subscriptions db
  ∧ plans db' = plans db.
Proof.
  unfold deleteTicket. rewrite authorize_admin.
  case_bool_decide as Hrole; [|done].
  destruct (tickets db !! id) as [ticket|] eqn:Hid; [|done].
  case_bool_decide as Horg; [|done]. simpl. intros [= _ <-]. simpl.
  split; [done|]. split; [by exists ticket|].
  split; [apply lookup_delete_eq|].
  split; [intros k Hk; by apply lookup_delete_ne|].
  split; [|done].
  intros rid r. by rewrite map_lookup_filter_Some.
Qed.

Lemma delete_cascades_witness :
  tickets (deleteTicket Sample.aliceA Sample.printer Sample.db).2 !! Sample.printer
  = None
  ∧ ∀ rid r,
      responses (deleteTicket Sample.aliceA Sample.printer Sample.db).2 !! rid
      = Some r
      ↔ responses Sample.db !! rid = Some r
        ∧ TicketResponse.ticketId r ≠ Sample.printer.
Proof.
  destruct (delete_cascades Sample.aliceA Sample.printer Sample.db
              "Ticket removed"
              (deleteTicket Sample.aliceA Sample.printer Sample.db).2)
    as (_ & _ & Hgone & _ & Hresp & _).
  - vm_compute. reflexivity.
  - split; [exact Hgone | exact Hresp].
Defined.

Example delete_printer_responses :
  map_to_list
    (responses (deleteTicket Sample.aliceA Sample.printer Sample.db).2)
  = [(Sample.r4, TicketResponse.mk Sample.invoice Sample.bob "Fixed" false 6)].
Proof. vm_compute. reflexivity. Qed.

(** ** Further properties of the routes *)

(** *** Refusals *)

Ltac handler_cases :=
  repeat (case_match; simpl in *; try done; simplify_eq).

(** Without a fault the handlers with a [catch] are the handlers above. *)
Lemma no_fault isEmail now oid nid user id db :
  (∀ body, createTicketIO None now nid user body db
           = createTicket now nid user body db)
  ∧ (∀ body, updateTicketIO None now user id body db
             = updateTicket now user id body db)
  ∧ (∀ body, addResponseIO None now nid user id body db
             = addResponse now nid user id body db)
  ∧ deleteTicketIO None user id db = deleteTicket user id db
  ∧ (∀ body, updateUserIO None now user id body db
             = updateUser now user id body db)
  ∧ deleteUserIO None user id db = deleteUser user id db
  ∧ (∀ body, createSubuserIO isEmail None now nid user body db
             = createSubuser isEmail now nid user body db)
  ∧ (∀ body, registerIO isEmail None now oid nid body db
             = register isEmail now oid nid body db).
Proof.
  repeat split; intros *;
    unfold addResponseIO, addResponse, registerIO, register; simpl;
    rewrite ?orb_false_r; handler_cases.
Qed.

(** X4. A request that is refused persists nothing: whenever one of the
    eight writing routes of the API server answers with a validation error
    or a 4xx, the database is exactly as it was, whichever store call may
    throw. For the routes that write once (creating and updating a ticket,
    updating and deleting a user, creating a subuser) the same holds for a
    500. *)
Theorem refused_requests_persist_nothing isEmail fault now oid nid user id db :
  (∀ body, denied (createTicketIO fault now nid user body db).1 →
           (createTicketIO fault now nid user body db).2 = db)
  ∧ (∀ body, denied (updateTicketIO fault now user id body db).1 →
             (updateTicketIO fault now user id body db).2 = db)
  ∧ (∀ body, denied (updateUserIO fault now user id body db).1 →
             (updateUserIO fault now user id body db).2 = db)
  ∧ (denied (deleteUserIO fault user id db).1 →
     (deleteUserIO fault user id db).2 = db)
  ∧ (∀ body, denied (createSubuserIO isEmail fault now nid user body db).1 →
             (createSubuserIO isEmail fault now nid user body db).2 = db)
  ∧ (∀ body, refusal (addResponseIO fault now nid user id body db).1 →
             (addResponseIO fault now nid user id body db).2 = db)
  ∧ (refusal (deleteTicketIO fault user id db).1 →
     (deleteTicketIO fault user id db).2 = db)
  ∧ (∀ body, refusal (registerIO isEmail fault now oid nid body db).1 →
             (registerIO isEmail fault now oid nid body db).2 = db).
Proof.
  repeat split; intros *.
  - unfold createTicketIO. handler_cases.
  - unfold updateTicketIO. handler_cases.
  - unfold updateUserIO. handler_cases.
  - unfold deleteUserIO. handler_cases.
  - unfold createSubuserIO. handler_cases.
  - unfold addResponseIO. handler_cases.
  - unfold deleteTicketIO. handler_cases.
  - unfold registerIO. handler_cases.
Qed.

Lemma refused_requests_persist_nothing_witness :
  (updateTicketIO (Some 1%nat) 20 Sample.bobA Sample.printer
     (Sample.setStatus pending) Sample.db).2
  = Sample.db.
Proof.
  destruct (refused_requests_persist_nothing QuotaSample.isEmail (Some 1%nat) 20
              Sample.r5 Sample.r5 Sample.bobA Sample.printer Sample.db)
    as (_ & Hupdate & _).
  apply Hupdate. vm_compute. exact I.
Defined.

(** X26. The routes that write twice are not atomic. If the save of the
    ticket throws after a response was stored on a resolved or archived
    ticket, the reply is 500 and the response stays on the ticket, which is
    not reopened; if the removal of a ticket throws, its responses are
    already deleted and the ticket is still there; if the save of the first
    user throws, the organization of the registration is already stored. *)
Theorem server_error_keeps_first_write isEmail now oid nid user id db :
  (∀ body ticket,
     tickets db !! id = Some ticket →
     noAccess user ticket = false →
     validateResponse body = [] →
     Ticket.status ticket = resolved ∨ Ticket.status ticket = archived →
     ∃ response,
       addResponseIO (Some 2%nat) now nid user id body db
       = (serverError, set_responses (<[nid := response]> (responses db)) db)
       ∧ TicketResponse.ticketId response = id)
  ∧ (∀ ticket,
       tickets db !! id = Some ticket →
       Actor.role user = admin →
       Ticket.organizationId ticket = Actor.organizationId user →
       deleteTicketIO (Some 2%nat) user id db
       = (serverError,
          set_responses
            (filter (λ d : ResponseDoc, TicketResponse.ticketId d.2 ≠ id)
               (responses db)) db))
  ∧ (∀ body,
       validateRegister isEmail body = [] →
       emailTaken (default EmptyString (r_email body)) db = false →
       trim (default EmptyString (r_organizationName body)) ≠ EmptyString →
       registerIO isEmail (Some 2%nat) now oid nid body db
       = (serverError,
          set_organizations
            (<[oid := Organization.create
                        (default EmptyString (r_organizationName body))]>
               (organizations db)) db)).
Proof.
  split; [|split].
  - intros body ticket Hid Hacc Hval Hst. unfold addResponseIO.
    rewrite Hval. simpl. rewrite Hid, Hacc.
    rewrite bool_decide_eq_true_2 by by apply closed_status.
    by eexists.
  - intros ticket Hid Hrole Horg. unfold deleteTicketIO.
    rewrite authorize_admin, (bool_decide_eq_true_2 _ Hrole). simpl.
    rewrite Hid. by rewrite (bool_decide_eq_true_2 _ Horg).
  - intros body Hval Hfree Hname. unfold registerIO. rewrite Hval. simpl.
    rewrite Hfree. unfold Organization.valid, Organization.create. simpl.
    apply String.eqb_neq in Hname. by rewrite Hname.
Qed.

Lemma server_error_keeps_first_write_witness :
  ∃ response,
    addResponseIO (Some 2%nat) 30 Sample.r5 Sample.daveA Sample.invoice
      (Sample.say "Still wrong" false) Sample.db
    = (serverError,
       set_responses (<[Sample.r5 := response]> (responses Sample.db)) Sample.db)
    ∧ TicketResponse.ticketId response = Sample.invoice.
Proof.
  destruct (server_error_keeps_first_write QuotaSample.isEmail 30 Sample.r5
              Sample.r5 Sample.daveA Sample.invoice Sample.db) as [Hresp _].
  apply (Hresp (Sample.say "Still wrong" false)
           (Ticket.mk "Invoice" "Wrong total" "billing" high resolved
              Sample.dave (Some Sample.bob) Sample.acme (Some 7) 7)).
  - vm_compute. reflexivity.
  - vm_compute. reflexivity.
  - reflexivity.
  - by left.
Defined.

Lemma foreign_ticket_refused_witness :
  getTicket Sample.eveA Sample.printer Sample.db
  = Fail 403 "Not authorized to access this ticket".
Proof.
  apply (foreign_ticket_refused (λ _ _, true) 20 Sample.r5 Sample.eveA
           Sample.printer Sample.db UpdateSample.printerTicket).
  - vm_compute. reflexivity.
  - discriminate.
Defined.

Lemma foreign_user_refused_witness :
  denied (getUser Sample.eveA Sample.carol Sample.db).
Proof.
  apply (foreign_user_refused 20 Sample.eveA Sample.carol Sample.db
           (Sample.account "carol@acme.io" customer Sample.acme (Some Sample.alice))).
  - vm_compute. reflexivity.
  - discriminate.
Defined.

Lemma run_stampedOnlyResolved_witness :
  stampedOnlyResolved
    (foldl serve Sample.db
       [Update 20 Sample.aliceA Sample.printer (Sample.setStatus resolved);
        Respond 21 Sample.r5 Sample.carolA Sample.printer
          (Sample.say "Thanks" false);
        Update 22 Sample.bobA Sample.invoice (Sample.setStatus archived)]).
Proof.
  apply (run_stampedOnlyResolved _ Sample.db).
  assert (Hall : map_Forall (λ _ t, Ticket.resolvedAt t ≠ None →
                                   Ticket.status t = resolved)
                            (tickets Sample.db)).
  { refine (bool_decide_unpack _ _). vm_compute. exact I. }
  intros id t Hid. exact (Hall id t Hid).
Defined.

(** *** Responses *)

#[local] Instance byCreatedAsc_total : Total byCreatedAsc.
Proof. intros a b. unfold byCreatedAsc. lia. Qed.
#[local] Instance byCreatedAsc_trans : Transitive byCreatedAsc.
Proof. intros a b c. unfold byCreatedAsc. lia. Qed.
#[local] Instance byUpdatedDesc_total : Total byUpdatedDesc.
Proof. intros a b. unfold byUpdatedDesc. lia. Qed.
#[local] Instance byUpdatedDesc_trans : Transitive byUpdatedDesc.
Proof. intros a b c. unfold byUpdatedDesc. lia. Qed.

Lemma elem_of_findResponses id db (d : ResponseDoc) :
  d ∈ findResponses id db
  ↔ responses db !! d.1 = Some d.2 ∧ TicketResponse.ticketId d.2 = id.
Proof.
  destruct d as [k r]. unfold findResponses. simpl.
  by rewrite elem_of_merge_sort, elem_of_map_to_list, map_lookup_filter_Some.
Qed.

(** X5. The responses read for a ticket are exactly the stored responses
    whose [ticketId] is that ticket, each once, oldest first. *)
Theorem findResponses_chronological id db :
  StronglySorted byCreatedAsc (findResponses id db)
  ∧ NoDup (findResponses id db)
  ∧ ∀ d : ResponseDoc,
      d ∈ findResponses id db
      ↔ responses db !! d.1 = Some d.2 ∧ TicketResponse.ticketId d.2 = id.
Proof.
  split; [apply StronglySorted_merge_sort; apply _|].
  split; [|apply elem_of_findResponses].
  unfold findResponses. rewrite merge_sort_Permutation. apply NoDup_map_to_list.
Qed.

Lemma addResponse_stored now rid user id body db reply db' :
  addResponse now rid user id body db = (Json reply, db') →
  ∃ ticket,
    tickets db !! id = Some ticket
    ∧ noAccess user ticket = false
    ∧ validateResponse body = []
    ∧ reply = (rid, TicketResponse.mk id (Actor.id user)
                      (default EmptyString (b_content body))
                      (isInternalNote user (b_isInternal body)) now)
    ∧ responses db' = <[rid := reply.2]> (responses db)
    ∧ users db' = users db
    ∧ ∃ ticket', tickets db' !! id = Some ticket'
                 ∧ Ticket.organizationId ticket' = Ticket.organizationId ticket
                 ∧ Ticket.createdBy ticket' = Ticket.createdBy ticket.
Proof.
  unfold addResponse.
  destruct (validateResponse body) eqn:Hc; [|done].
  destruct (tickets db !! id) as [ticket|] eqn:Hid; [|done].
  destruct (noAccess user ticket) eqn:Hacc; [done|].
  intros [= <- <-]. exists ticket. repeat (split; [done|]).
  case_bool_decide; simpl.
  - split; [done|]. split; [done|]. eexists. by rewrite lookup_insert_eq.
  - split; [done|]. split; [done|]. by exists ticket.
Qed.

Lemma accepted_flag_truthy v :
  isBooleanValue v = true →
  flagTruthy v = true ↔ v ≠ JBool false ∧ v ≠ JNumber 0.
Proof.
  destruct v as [[]|n|s]; simpl; intros Hv.
  - split; [intros _; split; discriminate | done].
  - split; [discriminate | intros [H _]; by destruct H].
  - rewrite negb_true_iff, Z.eqb_neq. split.
    + intros Hn. split; [discriminate | intros [= ?]; done].
    + intros [_ Hn] Heq. apply Hn. by rewrite Heq.
  - split; [intros _; split; discriminate | intros _].
    destruct s; [discriminate | reflexivity].
Qed.

(** X6. A stored response always carries the ticket of the request, the
    requester as author and the content sent. It is an internal note exactly
    when a value was sent for [isInternal] that is neither false nor 0 (the
    strings 'true', '1', 'false' and '0' all count) and the requester is an
    admin or an agent, so a customer's response is never internal. *)
Theorem response_author_and_flag now rid user id body db reply db' :
  addResponse now rid user id body db = (Json reply, db') →
  reply.1 = rid
  ∧ responses db' !! rid = Some reply.2
  ∧ TicketResponse.ticketId reply.2 = id
  ∧ TicketResponse.userId reply.2 = Actor.id user
  ∧ Some (TicketResponse.content reply.2) = b_content body
  ∧ TicketResponse.createdAt reply.2 = now
  ∧ (TicketResponse.isInternal reply.2 = true
     ↔ (∃ v, b_isInternal body = Some v ∧ v ≠ JBool false ∧ v ≠ JNumber 0)
       ∧ (Actor.role user = admin ∨ Actor.role user = agent)).
Proof.
  intros H. apply addResponse_stored in H
    as (ticket & _ & _ & Hc & -> & Hr & _). simpl in *.
  unfold validateResponse in Hc. apply app_eq_nil in Hc as [Hc Hv].
  split; [done|]. split; [by rewrite Hr, lookup_insert_eq|].
  repeat (split; [done|]).
  split.
  { unfold notEmpty in Hc. destruct (b_content body) as [c|]; [done|].
    by simpl in Hc. }
  split; [done|].
  unfold isInternalNote. destruct (b_isInternal body) as [v|].
  - assert (Hok : isBooleanValue v = true) by by destruct (isBooleanValue v).
    rewrite andb_true_iff, (accepted_flag_truthy v Hok), bool_decide_eq_true.
    set_unfold. split.
    + intros [[H1 H2] Hrole]. split; [by exists v | tauto].
    + intros [(v' & [= <-] & H1 & H2) Hrole]. tauto.
  - split; [done | by intros [(v & [=] & _) _]].
Qed.

Lemma response_author_and_flag_witness :
  TicketResponse.isInternal
    (TicketResponse.mk Sample.printer Sample.bob "Tray" true 30) = true
  ↔ (∃ v, Some (JString "false") = Some v ∧ v ≠ JBool false ∧ v ≠ JNumber 0)
    ∧ (Actor.role Sample.bobA = admin ∨ Actor.role Sample.bobA = agent).
Proof.
  apply (response_author_and_flag 30 Sample.r5 Sample.bobA Sample.printer
           (mkResponseBody (Some "Tray") (Some (JString "false"))) Sample.db
           (Sample.r5, TicketResponse.mk Sample.printer Sample.bob "Tray" true 30)
           (addResponse 30 Sample.r5 Sample.bobA Sample.printer
              (mkResponseBody (Some "Tray") (Some (JString "false")))
              Sample.db).2).
  vm_compute. reflexivity.
Defined.

(** X7. After a response is stored on a ticket, every actor of the ticket's
    organization who is not a customer gets the ticket by id with the
    response in the list, internal note or not; every reply that carries the
    ticket carries the response; a customer, the author included, is refused
    by GET /api/tickets/:id. *)
Theorem posted_response_visibility now rid user id body db reply db' viewer :
  addResponse now rid user id body db = (Json reply, db') →
  (∀ ticket sent, getTicket viewer id db' = Json (ticket, sent) → reply ∈ sent)
  ∧ (Actor.role viewer ≠ customer →
     Ticket.organizationId <$> tickets db !! id
     = Some (Actor.organizationId viewer) →
     ∃ ticket sent, getTicket viewer id db' = Json (ticket, sent) ∧ reply ∈ sent)
  ∧ (Actor.role viewer = customer → denied (getTicket viewer id db')).
Proof.
  intros Hpost.
  apply addResponse_stored in Hpost
    as (t0 & Hid & _ & _ & Hreply & Hr & _ & t1 & Hid1 & Horg1 & _).
  assert (Hin : reply ∈ findResponses id db').
  { apply elem_of_findResponses. rewrite Hr, Hreply. simpl.
    by rewrite lookup_insert_eq. }
  split; [|split].
  - intros ticket sent Hget.
    apply getTicket_Json in Hget as (_ & _ & _ & ->). exact Hin.
  - intros Hrole Horg. rewrite Hid in Horg. injection Horg as Horg.
    exists t1, (findResponses id db'). split; [|exact Hin].
    apply getTicket_staff; [done | congruence | done].
  - apply getTicket_customer.
Qed.

Lemma posted_response_visibility_witness :
  ∃ ticket sent,
    getTicket Sample.bobA Sample.printer
      (addResponse 30 Sample.r5 Sample.carolA Sample.printer
         (Sample.say "Any news?" false) Sample.db).2
    = Json (ticket, sent)
    ∧ (Sample.r5,
       TicketResponse.mk Sample.printer Sample.carol "Any news?" false 30)
      ∈ sent.
Proof.
  destruct (posted_response_visibility 30 Sample.r5 Sample.carolA Sample.printer
              (Sample.say "Any news?" false) Sample.db
              (Sample.r5,
               TicketResponse.mk Sample.printer Sample.carol "Any news?" false 30)
              (addResponse 30 Sample.r5 Sample.carolA Sample.printer
                 (Sample.say "Any news?" false) Sample.db).2
              Sample.bobA) as (_ & Hstaff & _).
  - vm_compute. reflexivity.
  - apply Hstaff; [discriminate | vm_compute; reflexivity].
Defined.

(** *** The ticket list and ticket creation *)

(** X8. The ticket list is ordered by [updatedAt], newest first, and shows
    no ticket twice, for every actor and query. *)
Theorem listTickets_newest_first textSearch user query db :
  ∃ l, listTickets textSearch user query db = Json l
       ∧ StronglySorted byUpdatedDesc l
       ∧ NoDup l.
Proof.
  eexists. split; [reflexivity|].
  split; [apply StronglySorted_merge_sort; apply _|].
  rewrite merge_sort_Permutation.
  apply NoDup_ListNoDup, List.NoDup_filter, NoDup_ListNoDup, NoDup_map_to_list.
Qed.

(** X9. A status name in the query string that is one of the six statuses
    keeps exactly the tickets of the unfiltered list with that status; any
    other value is ignored and the list is the unfiltered one. *)
Theorem listTickets_status_filter textSearch user name search db :
  ∃ l l0,
    listTickets textSearch user (mkQuery (Some name) search) db = Json l
    ∧ listTickets textSearch user (mkQuery None search) db = Json l0
    ∧ match statusOfString name with
      | Some s => ∀ d, d ∈ l ↔ d ∈ l0 ∧ hasStatus s d
      | None => l = l0
      end.
Proof.
  destruct (listTickets_spec textSearch user (mkQuery (Some name) search) db)
    as (l & Hl & Hin).
  destruct (listTickets_spec textSearch user (mkQuery None search) db)
    as (l0 & Hl0 & Hin0).
  exists l, l0. split; [done|]. split; [done|].
  assert (Hf : f_status (buildFilter user (mkQuery (Some name) search))
               = statusOfString name).
  { unfold buildFilter; simpl. destruct name; reflexivity. }
  destruct (statusOfString name) as [s|] eqn:Hs.
  - intros d. rewrite Hin, Hin0. unfold matches, hasStatus. rewrite Hf. simpl.
    destruct (bool_decide (Ticket.organizationId d.2 = Actor.organizationId user));
      destruct (match (if bool_decide (Actor.role user = customer)
                       then Some (Actor.id user) else None) with
                | Some u => bool_decide (Ticket.createdBy d.2 = u)
                | None => true
                end);
      destruct (match (if truthy search then search else None) with
                | Some w => textSearch w d
                | None => true
                end);
      simpl; rewrite ?andb_true_r, ?andb_false_r, ?bool_decide_eq_true;
      intuition congruence.
  - assert (Hb : buildFilter user (mkQuery (Some name) search)
                 = buildFilter user (mkQuery None search)).
    { unfold buildFilter in *. simpl in *. by rewrite Hf. }
    unfold listTickets in Hl, Hl0. rewrite Hb in Hl. congruence.
Qed.

(** X10. A ticket that is created belongs to its creator: [createdBy] and
    the organization are those of the requester whatever the body says,
    title, description and category are those sent, the priority is the one
    sent or medium, and nothing else is written. The creator finds the ticket
    in the list at once; by id the creator gets it unless the creator is a
    customer, whom GET /api/tickets/:id refuses. *)
Theorem created_ticket_belongs_to_creator textSearch now tid user body db
    reply db' :
  createTicket now tid user body db = (Json reply, db') →
  reply.1 = tid
  ∧ tickets db' !! tid = Some reply.2
  ∧ Ticket.createdBy reply.2 = Actor.id user
  ∧ Ticket.organizationId reply.2 = Actor.organizationId user
  ∧ Ticket.priority reply.2 = default medium (n_priority body)
  ∧ Some (Ticket.title reply.2) = n_title body
  ∧ Some (Ticket.description reply.2) = n_description body
  ∧ Some (Ticket.category reply.2) = n_category body
  ∧ (∀ k, k ≠ tid → tickets db' !! k = tickets db !! k)
  ∧ responses db' = responses db
  ∧ users db' = users db
  ∧ (∃ l, listTickets textSearch user everything db' = Json l ∧ reply ∈ l)
  ∧ (Actor.role user ≠ customer →
     getTicket user tid db' = Json (reply.2, findResponses tid db'))
  ∧ (Actor.role user = customer → denied (getTicket user tid db')).
Proof.
  unfold createTicket. destruct (validateNewTicket body) eqn:Hval; [|done].
  intros [= <- <-]. simpl.
  unfold validateNewTicket, notEmpty in Hval.
  apply app_eq_nil in Hval as [Ht Hval]. apply app_eq_nil in Hval as [Hd Hc].
  split; [done|]. split; [apply lookup_insert_eq|].
  repeat (split; [done|]).
  split; [destruct (n_title body); [done | by simpl in Ht]|].
  split; [destruct (n_description body); [done | by simpl in Hd]|].
  split; [destruct (n_category body); [done | by simpl in Hc]|].
  split; [intros k Hk; by apply lookup_insert_ne|].
  split; [done|]. split; [done|]. split; [|split].
  - destruct (listTickets_spec textSearch user everything
                (set_tickets (<[tid := newTicket now user body]> (tickets db)) db))
      as (l & Hl & Hin).
    exists l. split; [done|]. apply Hin. simpl.
    split; [apply lookup_insert_eq|]. by apply matches_everything.
  - intros Hrole. apply getTicket_staff; [apply lookup_insert_eq | done | done].
  - apply getTicket_customer.
Qed.

Lemma created_ticket_belongs_to_creator_witness :
  Ticket.createdBy
    (newTicket 40 Sample.carolA
       (mkNewTicket (Some "Mouse") (Some "Dead") None (Some "hardware")))
  = Actor.id Sample.carolA.
Proof.
  apply (created_ticket_belongs_to_creator (λ _ _, true) 40 Sample.r5
           Sample.carolA
           (mkNewTicket (Some "Mouse") (Some "Dead") None (Some "hardware"))
           Sample.db
           (Sample.r5,
            newTicket 40 Sample.carolA
              (mkNewTicket (Some "Mouse") (Some "Dead") None (Some "hardware")))
           (createTicket 40 Sample.r5 Sample.carolA
              (mkNewTicket (Some "Mouse") (Some "Dead") None (Some "hardware"))
              Sample.db).2).
  vm_compute. reflexivity.
Defined.

(** *** What an update keeps and what it repeats *)

Lemma staffFields_identity now body t :
  Ticket.createdBy (staffFields now body t) = Ticket.createdBy t
  ∧ Ticket.organizationId (staffFields now body t) = Ticket.organizationId t.
Proof.
  unfold staffFields, applyAssignedTo, applyPriority.
  destruct (truthy (b_assignedTo body)), (b_priority body),
    (b_status body) as [[]|]; split; reflexivity.
Qed.

Lemma serve_identity db r id :
  Ticket.createdBy <$> tickets (serve db r) !! id
  = Ticket.createdBy <$> tickets db !! id
  ∧ Ticket.organizationId <$> tickets (serve db r) !! id
    = Ticket.organizationId <$> tickets db !! id
  ∧ users (serve db r) = users db.
Proof.
  destruct r as [now user k body | now rid user k body]; simpl.
  - unfold updateTicket. destruct (validateTicketUpdate body); [|done].
    destruct (tickets db !! k) as [t|] eqn:Hk; [|done].
    destruct (negb _); [done|].
    destruct (bool_decide (Actor.role user = customer)).
    + destruct (negb _); [done|]. simpl.
      destruct (decide (k = id)) as [->|Hne].
      * by rewrite lookup_insert_eq, Hk.
      * by rewrite lookup_insert_ne.
    + simpl. destruct (decide (k = id)) as [->|Hne].
      * rewrite lookup_insert_eq, Hk. simpl.
        by destruct (staffFields_identity now body t) as [-> ->].
      * by rewrite lookup_insert_ne.
  - unfold addResponse. destruct (validateResponse body); [|done].
    destruct (tickets db !! k) as [t|] eqn:Hk; [|done].
    destruct (noAccess user t); [done|].
    case_bool_decide; simpl; [|done].
    destruct (decide (k = id)) as [->|Hne].
    + by rewrite lookup_insert_eq, Hk.
    + by rewrite lookup_insert_ne.
Qed.

(** X11. No sequence of ticket updates and responses creates or removes a
    ticket or changes the creator or the organization of one, and none
    touches the users. *)
Theorem ticket_identity_is_kept (rs : list Request) db id :
  Ticket.createdBy <$> tickets (foldl serve db rs) !! id
  = Ticket.createdBy <$> tickets db !! id
  ∧ Ticket.organizationId <$> tickets (foldl serve db rs) !! id
    = Ticket.organizationId <$> tickets db !! id
  ∧ users (foldl serve db rs) = users db.
Proof.
  revert db. induction rs as [|r rs IH]; intros db; simpl; [done|].
  destruct (IH (serve db r)) as (-> & -> & ->). apply serve_identity.
Qed.

(** X12. An admin or agent of the ticket's organization can move a ticket
    from any status to any of the six statuses with one well-formed update;
    a status other than resolved leaves the ticket without [resolvedAt]. *)
Theorem staff_sets_any_status now user id body db ticket s :
  tickets db !! id = Some ticket →
  Actor.role user ≠ customer →
  Ticket.organizationId ticket = Actor.organizationId user →
  validateTicketUpdate body = [] →
  b_status body = Some s →
  ∃ t', updateTicket now user id body db
        = (Json t', set_tickets (<[id := t']> (tickets db)) db)
        ∧ Ticket.status t' = s
        ∧ (s ≠ resolved → Ticket.resolvedAt t' = None).
Proof.
  intros Hid Hrole Horg Hval Hs. unfold updateTicket. rewrite Hval, Hid.
  rewrite (bool_decide_eq_true_2 _ Horg). simpl.
  rewrite (bool_decide_eq_false_2 _ Hrole).
  eexists. split; [reflexivity|]. simpl.
  unfold staffFields, applyAssignedTo, applyPriority. rewrite Hs.
  destruct (truthy (b_assignedTo body)), (b_priority body), s; simpl; done.
Qed.

Lemma staff_sets_any_status_witness :
  ∃ t', updateTicket 20 Sample.bobA Sample.invoice (Sample.setStatus on_hold)
          Sample.db
        = (Json t', set_tickets (<[Sample.invoice := t']> (tickets Sample.db))
                      Sample.db)
        ∧ Ticket.status t' = on_hold
        ∧ (on_hold ≠ resolved → Ticket.resolvedAt t' = None).
Proof.
  apply (staff_sets_any_status 20 Sample.bobA Sample.invoice
           (Sample.setStatus on_hold) Sample.db
           (Ticket.mk "Invoice" "Wrong total" "billing" high resolved
              Sample.dave (Some Sample.bob) Sample.acme (Some 7) 7)).
  - vm_compute. reflexivity.
  - discriminate.
  - reflexivity.
  - reflexivity.
  - reflexivity.
Defined.

Lemma assignIf_idem v old : assignIf v (assignIf v old) = assignIf v old.
Proof. destruct v as [s|]; simpl; [|done]. by destruct (negb _). Qed.

Lemma customerFields_idem now body t :
  Ticket.set_updatedAt now
    (customerFields body (Ticket.set_updatedAt now (customerFields body t)))
  = Ticket.set_updatedAt now (customerFields body t).
Proof.
  destruct t. unfold customerFields, Ticket.set_updatedAt. simpl.
  by rewrite !assignIf_idem.
Qed.

Lemma staffFields_idem now body t :
  Ticket.set_updatedAt now
    (staffFields now body (Ticket.set_updatedAt now (staffFields now body t)))
  = Ticket.set_updatedAt now (staffFields now body t).
Proof.
  destruct t. unfold staffFields, applyAssignedTo, applyPriority.
  destruct (truthy (b_assignedTo body)), (b_priority body),
    (b_status body) as [[]|]; unfold Ticket.set_updatedAt; simpl;
    by rewrite !assignIf_idem.
Qed.

(** X13. Updating a ticket is idempotent: the same request sent again at the
    same time gets the same reply and leaves the same database. *)
Theorem updateTicket_idempotent now user id body db :
  updateTicket now user id body (updateTicket now user id body db).2
  = updateTicket now user id body db.
Proof.
  unfold updateTicket. destruct (validateTicketUpdate body) eqn:Hval; [|done].
  destruct (tickets db !! id) as [t|] eqn:Hid; simpl; [|by rewrite Hid].
  destruct (bool_decide (Ticket.organizationId t = Actor.organizationId user))
    eqn:Horg; simpl; [|by rewrite Hid, Horg].
  destruct (bool_decide (Actor.role user = customer)) eqn:Hrole.
  - destruct (bool_decide (Ticket.createdBy t = Actor.id user)) eqn:Hown; simpl;
      [|by rewrite Hid, Horg, Hown].
    rewrite lookup_insert_eq. simpl. rewrite Horg, Hown. simpl.
    by rewrite customerFields_idem, insert_insert_eq.
  - simpl. rewrite lookup_insert_eq.
    destruct (staffFields_identity now body t) as [_ Ho].
    simpl. rewrite Ho, Horg. simpl.
    by rewrite staffFields_idem, insert_insert_eq.
Qed.

(** *** After a ticket is deleted *)

(** X14. Once a ticket is deleted it is gone for everyone: reading it is
    answered 404 for every actor, no list shows it, none of its responses
    is left, and a second delete by an admin is answered 404 without
    touching the database. *)
Theorem deleted_ticket_is_gone textSearch user id db msg db' :
  deleteTicket user id db = (Json msg, db') →
  findResponses id db' = []
  ∧ (∀ viewer, getTicket viewer id db' = Fail 404 "Ticket not found")
  ∧ (∀ viewer query l t,
       listTickets textSearch viewer query db' = Json l → (id, t) ∉ l)
  ∧ deleteTicket user id db' = (Fail 404 "Ticket not found", db').
Proof.
  unfold deleteTicket at 1. rewrite authorize_admin.
  case_bool_decide as Hrole; [|done].
  destruct (tickets db !! id) as [ticket|] eqn:Hid; [|done].
  case_bool_decide as Horg; [|done]. simpl. intros [= _ <-].
  split; [|split; [|split]].
  - unfold findResponses. simpl.
    assert (Hempty : filter (λ d : ResponseDoc, TicketResponse.ticketId d.2 = id)
                       (filter (λ d : ResponseDoc, TicketResponse.ticketId d.2 ≠ id)
                          (responses db)) = ∅).
    { apply map_eq. intros k. rewrite lookup_empty.
      apply map_lookup_filter_None. right. intros r Hr.
      apply map_lookup_filter_Some in Hr as [_ Hne]. done. }
    rewrite Hempty. by rewrite map_to_list_empty.
  - intros viewer. unfold getTicket. simpl. by rewrite lookup_delete_eq.
  - intros viewer query l t Hl Hin.
    destruct (listTickets_spec textSearch viewer query
                (set_tickets (delete id (tickets db))
                   (set_responses
                      (filter (λ d : ResponseDoc, TicketResponse.ticketId d.2 ≠ id)
                         (responses db)) db))) as (l' & Hl' & Hin').
    rewrite Hl in Hl'. injection Hl' as ->.
    apply Hin' in Hin as [Hin _]. simpl in Hin.
    by rewrite lookup_delete_eq in Hin.
  - unfold deleteTicket. rewrite authorize_admin.
    rewrite bool_decide_eq_true_2 by done. simpl. by rewrite lookup_delete_eq.
Qed.

Lemma deleted_ticket_is_gone_witness :
  findResponses Sample.printer
    (deleteTicket Sample.aliceA Sample.printer Sample.db).2 = [].
Proof.
  apply (deleted_ticket_is_gone (λ _ _, true) Sample.aliceA Sample.printer
           Sample.db "Ticket removed").
  vm_compute. reflexivity.
Defined.

(** *** The users routes *)

(** X15. Only an admin gets the list of users, and the list holds exactly
    the accounts of the admin's organization, each once. *)
Theorem listUsers_exact user db :
  (Actor.role user ≠ admin →
   listUsers user db = Fail 403 "Not authorized for this action")
  ∧ (Actor.role user = admin →
     ∃ l, listUsers user db = Json l
          ∧ NoDup l
          ∧ ∀ d : UserDoc,
              d ∈ l ↔ users db !! d.1 = Some d.2
                      ∧ User.organizationId d.2 = Actor.organizationId user).
Proof.
  unfold listUsers. rewrite authorize_admin. split; intros Hrole.
  - by rewrite bool_decide_eq_false_2.
  - rewrite bool_decide_eq_true_2 by done. eexists. split; [reflexivity|].
    split; [apply NoDup_map_to_list|].
    intros [k u]. by rewrite elem_of_map_to_list, map_lookup_filter_Some.
Qed.

Lemma listUsers_exact_witness :
  listUsers Sample.bobA Sample.db = Fail 403 "Not authorized for this action".
Proof.
  apply (listUsers_exact Sample.bobA Sample.db). discriminate.
Defined.

Lemma updateUser_Json now user id body db u' db' :
  updateUser now user id body db = (Json u', db') →
  Actor.role user = admin
  ∧ validateUserUpdate body = []
  ∧ ∃ u, users db !! id = Some u
         ∧ User.organizationId u = Actor.organizationId user
         ∧ u' = userFields now body u
         ∧ db' = set_users (<[id := u']> (users db)) db.
Proof.
  unfold updateUser. rewrite authorize_admin.
  case_bool_decide as Hrole; [|done].
  destruct (validateUserUpdate body); [|done].
  destruct (users db !! id) as [u|]; [|done].
  case_bool_decide as Horg; [|done]. simpl. intros [= <- <-].
  split; [done|]. split; [done|]. by exists u.
Qed.

Lemma userFields_identity now body u :
  User.email (userFields now body u) = User.email u
  ∧ User.organizationId (userFields now body u) = User.organizationId u
  ∧ User.parentUserId (userFields now body u) = User.parentUserId u
  ∧ User.role (userFields now body u) = default (User.role u) (b_role body)
  ∧ User.isActive (userFields now body u)
    = default (User.isActive u) (b_isActive body).
Proof.
  unfold userFields. by destruct (b_role body), (b_isActive body).
Qed.

(** X16. An update of a user never changes the e-mail address, the
    organization or [parentUserId] of the account; role and [isActive] take
    the values sent, no other account, ticket or response is written, and
    the admin reads back the account as it was replied. *)
Theorem updateUser_keeps_identity now user id body db u u' db' :
  users db !! id = Some u →
  updateUser now user id body db = (Json u', db') →
  User.email u' = User.email u
  ∧ User.organizationId u' = User.organizationId u
  ∧ User.parentUserId u' = User.parentUserId u
  ∧ User.role u' = default (User.role u) (b_role body)
  ∧ User.isActive u' = default (User.isActive u) (b_isActive body)
  ∧ (∀ k, k ≠ id → users db' !! k = users db !! k)
  ∧ tickets db' = tickets db
  ∧ responses db' = responses db
  ∧ getUser user id db' = Json u'.
Proof.
  intros Hid H. apply updateUser_Json in H
    as (Hrole & _ & u0 & Hid0 & Horg & -> & ->).
  rewrite Hid in Hid0. injection Hid0 as <-.
  destruct (userFields_identity now body u) as (He & Ho & Hp & Hr & Ha).
  repeat (split; [done|]).
  split; [intros k Hk; simpl; by apply lookup_insert_ne|].
  split; [done|]. split; [done|].
  unfold getUser. rewrite authorize_admin.
  rewrite bool_decide_eq_true_2 by done. simpl. rewrite lookup_insert_eq.
  rewrite Ho. by rewrite bool_decide_eq_true_2.
Qed.

Lemma updateUser_keeps_identity_witness :
  getUser Sample.aliceA Sample.bob
    (updateUser 20 Sample.aliceA Sample.bob
       (mkUserUpdate (Some "Robert") None (Some admin) None) Sample.db).2
  = Json (User.mk "bob@acme.io" "Robert" "Last" admin Sample.acme
            (Some Sample.alice) true 20).
Proof.
  apply (updateUser_keeps_identity 20 Sample.aliceA Sample.bob
           (mkUserUpdate (Some "Robert") None (Some admin) None) Sample.db
           (Sample.account "bob@acme.io" agent Sample.acme (Some Sample.alice))).
  - vm_compute. reflexivity.
  - vm_compute. reflexivity.
Defined.

Lemma deleteUser_Json user id db msg db' :
  deleteUser user id db = (Json msg, db') →
  Actor.role user = admin
  ∧ (∃ u p, users db !! id = Some u
            ∧ User.organizationId u = Actor.organizationId user
            ∧ User.parentUserId u = Some p)
  ∧ db' = set_users (delete id (users db)) db.
Proof.
  unfold deleteUser. rewrite authorize_admin.
  case_bool_decide as Hrole; [|done].
  destruct (users db !! id) as [u|]; [|done].
  case_bool_decide as Horg; [|done]. simpl.
  destruct (User.parentUserId u) as [p|] eqn:Hp; [|done]. intros [= _ <-].
  split; [done|]. split; [|done]. by exists u, p.
Qed.

(** X17. A user delete that succeeds was asked by an admin of the account's
    organization for an account that has a [parentUserId]; it removes that
    account and nothing else (the tickets and responses of the account stay),
    and the account is then not found. *)
Theorem deleteUser_removes_one user id db msg db' :
  deleteUser user id db = (Json msg, db') →
  Actor.role user = admin
  ∧ (∃ u p, users db !! id = Some u
            ∧ User.organizationId u = Actor.organizationId user
            ∧ User.parentUserId u = Some p)
  ∧ users db' !! id = None
  ∧ (∀ k, k ≠ id → users db' !! k = users db !! k)
  ∧ tickets db' = tickets db
  ∧ responses db' = responses db
  ∧ getUser user id db' = Fail 404 "User not found".
Proof.
  intros H. apply deleteUser_Json in H as (Hrole & Hu & ->).
  split; [done|]. split; [done|]. simpl.
  split; [apply lookup_delete_eq|].
  split; [intros k Hk; by apply lookup_delete_ne|].
  split; [done|]. split; [done|].
  unfold getUser. rewrite authorize_admin.
  rewrite bool_decide_eq_true_2 by done. simpl. by rewrite lookup_delete_eq.
Qed.

Lemma deleteUser_removes_one_witness :
  getUser Sample.aliceA Sample.bob
    (deleteUser Sample.aliceA Sample.bob Sample.db).2
  = Fail 404 "User not found".
Proof.
  apply (deleteUser_removes_one Sample.aliceA Sample.bob Sample.db
           "User removed").
  vm_compute. reflexivity.
Defined.

Lemma updateUser_refused now user id body db :
  denied (updateUser now user id body db).1 →
  (updateUser now user id body db).2 = db.
Proof. unfold updateUser. handler_cases. Qed.

Lemma deleteUser_refused user id db :
  denied (deleteUser user id db).1 → (deleteUser user id db).2 = db.
Proof. unfold deleteUser. handler_cases. Qed.

Lemma serveUser_cases db r :
  serveUser db r = db
  ∨ (∃ now user id body u,
       r = UpdateUser now user id body
       ∧ users db !! id = Some u
       ∧ validateUserUpdate body = []
       ∧ serveUser db r
         = set_users (<[id := userFields now body u]> (users db)) db)
  ∨ (∃ user id u p,
       r = DeleteUser user id
       ∧ users db !! id = Some u
       ∧ User.parentUserId u = Some p
       ∧ serveUser db r = set_users (delete id (users db)) db).
Proof.
  destruct r as [now user k body | user k]; simpl.
  - destruct (updateUser now user k body db) as [[u1| |] db1] eqn:Hupd.
    + apply updateUser_Json in Hupd as (_ & Hval & u0 & Hk & _ & -> & ->).
      right; left. by exists now, user, k, body, u0.
    + left. pose proof (updateUser_refused now user k body db) as Href.
      rewrite Hupd in Href. by apply Href.
    + left. pose proof (updateUser_refused now user k body db) as Href.
      rewrite Hupd in Href. by apply Href.
  - destruct (deleteUser user k db) as [[m| |] db1] eqn:Hdel.
    + apply deleteUser_Json in Hdel as (_ & (u0 & p & Hk & _ & Hp) & ->).
      right; right. by exists user, k, u0, p.
    + left. pose proof (deleteUser_refused user k db) as Href.
      rewrite Hdel in Href. by apply Href.
    + left. pose proof (deleteUser_refused user k db) as Href.
      rewrite Hdel in Href. by apply Href.
Qed.

Lemma serveUser_root db r id u :
  users db !! id = Some u →
  User.parentUserId u = None →
  ∃ u', users (serveUser db r) !! id = Some u'
        ∧ User.parentUserId u' = None
        ∧ User.organizationId u' = User.organizationId u
        ∧ User.email u' = User.email u.
Proof.
  intros Hid Hroot.
  destruct (serveUser_cases db r)
    as [-> | [(now & user & k & body & u0 & _ & Hk & _ & ->)
             | (user & k & u0 & p & _ & Hk & Hp & ->)]]; simpl.
  - by exists u.
  - destruct (decide (k = id)) as [->|Hne].
    + rewrite lookup_insert_eq. rewrite Hid in Hk. injection Hk as <-.
      destruct (userFields_identity now body u) as (He & Ho & Hp & _).
      eexists. split; [done|]. by rewrite Hp, Ho, He.
    + rewrite lookup_insert_ne by done. by exists u.
  - destruct (decide (k = id)) as [->|Hne].
    + rewrite Hid in Hk. injection Hk as <-. congruence.
    + rewrite lookup_delete_ne by done. by exists u.
Qed.

(** X18. No sequence of user updates and deletes removes an account that has
    no [parentUserId]: the account stays, without parent, in its
    organization and with its e-mail address. *)
Theorem root_accounts_survive (rs : list UserRequest) db id u :
  users db !! id = Some u →
  User.parentUserId u = None →
  ∃ u', users (foldl serveUser db rs) !! id = Some u'
        ∧ User.parentUserId u' = None
        ∧ User.organizationId u' = User.organizationId u
        ∧ User.email u' = User.email u.
Proof.
  revert db u. induction rs as [|r rs IH]; intros db u Hid Hroot; simpl.
  - by exists u.
  - destruct (serveUser_root db r id u Hid Hroot) as (u1 & Hid1 & Hroot1 & Ho & He).
    destruct (IH _ u1 Hid1 Hroot1) as (u' & Hid' & Hroot' & Ho' & He').
    exists u'. split; [done|]. split; [done|]. split; congruence.
Qed.

Lemma root_accounts_survive_witness :
  ∃ u', users
          (foldl serveUser Sample.db
             [DeleteUser Sample.aliceA Sample.alice;
              UpdateUser 20 Sample.aliceA Sample.alice
                (mkUserUpdate None None (Some customer) (Some false));
              DeleteUser Sample.aliceA Sample.bob;
              DeleteUser Sample.eveA Sample.alice]) !! Sample.alice = Some u'
        ∧ User.parentUserId u' = None
        ∧ User.organizationId u' = Sample.acme
        ∧ User.email u' = "alice@acme.io".
Proof.
  apply (root_accounts_survive _ Sample.db Sample.alice
           (Sample.account "alice@acme.io" admin Sample.acme None)).
  - vm_compute. reflexivity.
  - reflexivity.
Defined.

Lemma createSubuser_Json isEmail now uid user body db reply db' :
  createSubuser isEmail now uid user body db = (Json reply, db') →
  Actor.role user = admin
  ∧ validateSubuser isEmail body = []
  ∧ emailTaken (default EmptyString (s_email body)) db = false
  ∧ db' = set_users
            (<[uid := newSubuser now user (default EmptyString (s_email body))
                        (default EmptyString (s_firstName body))
                        (default EmptyString (s_lastName body))
                        (default customer (s_role body))]> (users db)) db.
Proof.
  unfold createSubuser. rewrite authorize_admin.
  case_bool_decide as Hrole; [|done].
  destruct (validateSubuser isEmail body); [|done].
  destruct (emailTaken _ db) eqn:Hfree; [done|]. by intros [= _ <-].
Qed.

(** X19. A subuser that was just created under a fresh id can be deleted by
    the admin who created it, and the delete restores the database exactly
    as it was before the creation. *)
Theorem subuser_create_delete_roundtrip isEmail now uid user body db reply db' :
  users db !! uid = None →
  createSubuser isEmail now uid user body db = (Json reply, db') →
  deleteUser user uid db' = (Json "User removed", db).
Proof.
  intros Hfresh H. apply createSubuser_Json in H as (Hrole & _ & _ & ->).
  unfold deleteUser. rewrite authorize_admin.
  rewrite bool_decide_eq_true_2 by done. simpl. rewrite lookup_insert_eq. simpl.
  rewrite bool_decide_eq_true_2 by done. simpl.
  rewrite delete_insert_id by done. by destruct db.
Qed.

Lemma subuser_create_delete_roundtrip_witness :
  deleteUser Sample.aliceA QuotaSample.gina
    (createSubuser QuotaSample.isEmail 40 QuotaSample.gina Sample.aliceA
       QuotaSample.ginaBody Sample.db).2
  = (Json "User removed", Sample.db).
Proof.
  apply (subuser_create_delete_roundtrip QuotaSample.isEmail 40 QuotaSample.gina
           Sample.aliceA QuotaSample.ginaBody Sample.db
           ("Subuser created successfully", QuotaSample.gina)).
  - vm_compute. reflexivity.
  - vm_compute. reflexivity.
Defined.

(** *** Accounts *)

Lemma emailTaken_false email db i u :
  emailTaken email db = false → users db !! i = Some u → User.email u ≠ email.
Proof.
  unfold emailTaken. intros Hfree Hi He.
  assert (Hex : existsb (λ d : UserDoc, bool_decide (User.email d.2 = email))
                  (map_to_list (users db)) = true); [|congruence].
  apply existsb_exists. exists (i, u). split.
  - by apply list_elem_of_In, elem_of_map_to_list.
  - by apply bool_decide_eq_true_2.
Qed.

Lemma register_Json isEmail now oid uid body db reply db' :
  register isEmail now oid uid body db = (Json reply, db') →
  validateRegister isEmail body = []
  ∧ emailTaken (default EmptyString (r_email body)) db = false
  ∧ Organization.valid
      (Organization.create (default EmptyString (r_organizationName body)))
    = true
  ∧ reply = payload (uid, firstUser now oid body)
  ∧ db' = set_users (<[uid := firstUser now oid body]> (users db))
            (set_organizations
               (<[oid := Organization.create
                           (default EmptyString (r_organizationName body))]>
                  (organizations db)) db).
Proof.
  unfold register. destruct (validateRegister isEmail body); [|done].
  destruct (emailTaken _ db) eqn:Hfree; [done|].
  destruct (Organization.valid _) eqn:Hname; [|done]. by intros [= <- <-].
Qed.

Lemma register_refused isEmail now oid uid body db :
  denied (register isEmail now oid uid body db).1 →
  (register isEmail now oid uid body db).2 = db.
Proof. unfold register. handler_cases. Qed.

Lemma createSubuser_refused isEmail now uid user body db :
  denied (createSubuser isEmail now uid user body db).1 →
  (createSubuser isEmail now uid user body db).2 = db.
Proof. unfold createSubuser. handler_cases. Qed.

(** What an account request does to the users collection. *)
Lemma serveAccount_cases isEmail db r :
  users (serveAccount isEmail db r) = users db
  ∨ (∃ id u now body,
       users db !! id = Some u
       ∧ validateUserUpdate body = []
       ∧ users (serveAccount isEmail db r)
         = <[id := userFields now body u]> (users db))
  ∨ (∃ id, users (serveAccount isEmail db r) = delete id (users db))
  ∨ (∃ id u,
       emailTaken (User.email u) db = false
       ∧ User.role u ≠ superadmin
       ∧ users (serveAccount isEmail db r) = <[id := u]> (users db)).
Proof.
  destruct r as [r | now uid user body | now oid uid body]; simpl.
  - destruct (serveUser_cases db r)
      as [-> | [(now & user & k & body & u0 & _ & Hk & Hval & ->)
               | (user & k & u0 & p & _ & Hk & Hp & ->)]]; simpl.
    + by left.
    + right; left. by exists k, u0, now, body.
    + right; right; left. by exists k.
  - destruct (createSubuser isEmail now uid user body db) as [[m| |] db1] eqn:Hc.
    + apply createSubuser_Json in Hc as (_ & Hval & Hfree & ->). simpl.
      right; right; right.
      exists uid, (newSubuser now user (default EmptyString (s_email body))
                     (default EmptyString (s_firstName body))
                     (default EmptyString (s_lastName body))
                     (default customer (s_role body))).
      split; [exact Hfree|]. split; [|reflexivity]. simpl.
      unfold validateSubuser in Hval.
      repeat (apply app_eq_nil in Hval as [_ Hval]).
      destruct (s_role body) as [[]|]; simpl in *; done.
    + left. pose proof (createSubuser_refused isEmail now uid user body db) as Href.
      rewrite Hc in Href. by rewrite Href.
    + left. pose proof (createSubuser_refused isEmail now uid user body db) as Href.
      rewrite Hc in Href. by rewrite Href.
  - destruct (register isEmail now oid uid body db) as [[m| |] db1] eqn:Hc.
    + apply register_Json in Hc as (_ & Hfree & _ & _ & ->). simpl.
      right; right; right. exists uid, (firstUser now oid body).
      split; [exact Hfree|]. split; [|reflexivity]. done.
    + left. pose proof (register_refused isEmail now oid uid body db) as Href.
      rewrite Hc in Href. by rewrite Href.
    + left. pose proof (register_refused isEmail now oid uid body db) as Href.
      rewrite Hc in Href. by rewrite Href.
Qed.

Lemma serveAccount_uniqueEmails isEmail db r :
  uniqueEmails db → uniqueEmails (serveAccount isEmail db r).
Proof.
  intros Hdb. unfold uniqueEmails.
  destruct (serveAccount_cases isEmail db r)
    as [-> | [(k & u0 & now & body & Hk & _ & ->)
             | [(k & ->) | (k & u0 & Hfree & _ & ->)]]]; [done| | |].
  - intros i j u v.
    destruct (userFields_identity now body u0) as (He & _).
    rewrite !lookup_insert. repeat case_decide; simplify_eq; try done.
    + intros [= <-] Hj Hmail. rewrite He in Hmail. by eapply Hdb.
    + intros Hi [= <-] Hmail. rewrite He in Hmail. by eapply Hdb.
    + apply Hdb.
  - intros i j u v Hi Hj.
    apply lookup_delete_Some in Hi as [_ Hi].
    apply lookup_delete_Some in Hj as [_ Hj]. by eapply Hdb.
  - intros i j u v.
    rewrite !lookup_insert. repeat case_decide; simplify_eq; try done.
    + intros [= <-] Hj Hmail. by destruct (emailTaken_false _ _ _ _ Hfree Hj).
    + intros Hi [= <-] Hmail. by destruct (emailTaken_false _ _ _ _ Hfree Hi).
    + apply Hdb.
Qed.

(** X20. E-mail addresses stay unique: if no two accounts share an address,
    then none do after any sequence of registrations, subuser creations,
    user updates and user deletes, whatever ids the new accounts get. *)
Theorem emails_stay_unique isEmail (rs : list AccountRequest) db :
  uniqueEmails db → uniqueEmails (foldl (serveAccount isEmail) db rs).
Proof.
  revert db. induction rs as [|r rs IH]; intros db Hdb; simpl; [done|].
  by apply IH, serveAccount_uniqueEmails.
Qed.

Lemma serveAccount_noSuperadmin isEmail db r :
  noSuperadmin db → noSuperadmin (serveAccount isEmail db r).
Proof.
  intros Hdb. unfold noSuperadmin.
  destruct (serveAccount_cases isEmail db r)
    as [-> | [(k & u0 & now & body & Hk & Hval & ->)
             | [(k & ->) | (k & u0 & _ & Hrole & ->)]]]; [done| | |].
  - intros i u. rewrite lookup_insert. case_decide; [|apply Hdb].
    intros [= <-].
    destruct (userFields_identity now body u0) as (_ & _ & _ & -> & _).
    unfold validateUserUpdate in Hval.
    repeat (apply app_eq_nil in Hval as [_ Hval]).
    destruct (b_role body) as [[]|]; simpl in *; try done. by eapply Hdb.
  - intros i u Hi. apply lookup_delete_Some in Hi as [_ Hi]. by eapply Hdb.
  - intros i u. rewrite lookup_insert. case_decide; [|apply Hdb].
    by intros [= <-].
Qed.

(** X21. No request can make an account a superadmin: if no account has that
    role, none has it after any sequence of registrations, subuser creations,
    user updates and user deletes. *)
Theorem no_superadmin_through_the_api isEmail (rs : list AccountRequest) db :
  noSuperadmin db → noSuperadmin (foldl (serveAccount isEmail) db rs).
Proof.
  revert db. induction rs as [|r rs IH]; intros db Hdb; simpl; [done|].
  by apply IH, serveAccount_noSuperadmin.
Qed.

Lemma sample_uniqueEmails : uniqueEmails Sample.db.
Proof.
  assert (Hall : map_Forall
                   (λ i u, map_Forall
                             (λ j v, User.email u = User.email v → i = j)
                             (users Sample.db))
                   (users Sample.db)).
  { refine (bool_decide_unpack _ _). vm_compute. exact I. }
  intros i j u v Hi Hj. exact (Hall i u Hi j v Hj).
Qed.

Lemma sample_noSuperadmin : noSuperadmin Sample.db.
Proof.
  assert (Hall : map_Forall (λ _ u, User.role u ≠ superadmin) (users Sample.db)).
  { refine (bool_decide_unpack _ _). vm_compute. exact I. }
  intros i u Hi. exact (Hall i u Hi).
Qed.

Lemma emails_stay_unique_witness :
  uniqueEmails
    (foldl (serveAccount QuotaSample.isEmail) Sample.db AccountSample.requests).
Proof.
  apply (emails_stay_unique QuotaSample.isEmail AccountSample.requests Sample.db).
  exact sample_uniqueEmails.
Defined.

Lemma no_superadmin_through_the_api_witness :
  noSuperadmin
    (foldl (serveAccount QuotaSample.isEmail) Sample.db AccountSample.requests).
Proof.
  apply (no_superadmin_through_the_api QuotaSample.isEmail
           AccountSample.requests Sample.db).
  exact sample_noSuperadmin.
Defined.



Lemma findByEmail_Some email db d :
  findByEmail email db = Some d →
  users db !! d.1 = Some d.2 ∧ User.email d.2 = email.
Proof.
  unfold findByEmail. intros H. apply find_some in H as [Hin He].
  apply list_elem_of_In in Hin. destruct d as [k u].
  apply elem_of_map_to_list in Hin. by apply bool_decide_eq_true_1 in He.
Qed.

(** X23. A login that succeeds names an account of the database that has
    the address sent and passes the password check, and the token carries
    the id, address, role and organization of that account, so that
    GET /api/auth/me with it returns the account. A login that is refused
    after validation gets one and the same reply, 400 "Invalid credentials",
    whether the address is unknown or the password is wrong. *)
Theorem login_names_a_stored_account isEmail comparePassword body db :
  (∀ a, login isEmail comparePassword body db = Json a →
        ∃ u, users db !! Actor.id a = Some u
             ∧ a = payload (Actor.id a, u)
             ∧ User.email u = default EmptyString (l_email body)
             ∧ comparePassword (Actor.id a, u)
                 (default EmptyString (l_password body)) = true
             ∧ me a db = Json (Some u))
  ∧ (∀ code msg, login isEmail comparePassword body db = Fail code msg →
                 code = 400%nat ∧ msg = "Invalid credentials").
Proof.
  unfold login. destruct (validateLogin isEmail body); [|done].
  destruct (findByEmail _ db) as [[k u]|] eqn:Hfind.
  - apply findByEmail_Some in Hfind as [Hk He]. simpl in *.
    destruct (comparePassword (k, u) _) eqn:Hpw; split; try done.
    + intros a [= <-]. simpl. exists u. unfold me. simpl. by rewrite Hk.
    + by intros code msg [= <- <-].
  - split; [done|]. by intros code msg [= <- <-].
Qed.

Lemma login_names_a_stored_account_witness :
  ∃ u, users Sample.db !! Sample.bob = Some u
       ∧ User.email u = "bob@acme.io".
Proof.
  destruct (login_names_a_stored_account QuotaSample.isEmail (λ _ _, true)
              (mkLoginBody (Some "bob@acme.io") (Some "hunter2")) Sample.db)
    as [Hok _].
  destruct (Hok (Actor.mk Sample.bob "bob@acme.io" agent Sample.acme))
    as (u & Hu & _ & He & _).
  - vm_compute. reflexivity.
  - exists u. split; [exact Hu | exact He].
Defined.

(** *** The serverless users function *)



Lemma netlify_delete_no_error rpc caller path db :
  Netlify.deleteUserIO rpc None Netlify.AuthDone caller path db
  = Netlify.deleteUser rpc caller path db.
Proof. reflexivity. Qed.

(** X25. The DELETE case, for a valid token and an id path. If the store
    returns an error for the delete, the reply is 500 with its message and
    nothing is changed. Otherwise the row of that id is removed and every
    other row kept; the stored procedure that decrements the user count is
    called for the organization of the row when the row existed and names
    one, and for an id without a row the organizations are left as they
    were; the auth account is removed only if the auth call completes; and
    the reply is 200 unless the auth client throws, in which case it is 500
    although the row is gone. *)
Theorem netlify_delete_effect rpc dbError auth caller path db :
  is_Some caller →
  Netlify.isIdPath path = true →
  (∀ message,
     dbError = Some message →
     Netlify.deleteUserIO rpc dbError auth caller path db
     = (Netlify.mkResponse 500 (Netlify.Error message), db))
  ∧ (dbError = None →
     Netlify.t_users (Netlify.deleteUserIO rpc dbError auth caller path db).2
     = delete path (Netlify.t_users db)
     ∧ (Netlify.deleteUserIO rpc dbError auth caller path db).1
       = match auth with
         | Netlify.AuthThrows message =>
             Netlify.mkResponse 500 (Netlify.Error message)
         | _ => Netlify.mkResponse 200 Netlify.Success
         end
     ∧ Netlify.t_auth (Netlify.deleteUserIO rpc dbError auth caller path db).2
       = match auth with
         | Netlify.AuthDone => Netlify.t_auth db ∖ {[path]}
         | _ => Netlify.t_auth db
         end
     ∧ (∀ r org,
          Netlify.t_users db !! path = Some r →
          Netlify.organization_id r = Some org →
          org ≠ EmptyString →
          Netlify.t_organizations
            (Netlify.deleteUserIO rpc dbError auth caller path db).2
          = rpc "decrement_organization_users" org (Netlify.t_organizations db))
     ∧ (Netlify.t_users db !! path = None →
        Netlify.t_users (Netlify.deleteUserIO rpc dbError auth caller path db).2
        = Netlify.t_users db
        ∧ Netlify.t_organizations
            (Netlify.deleteUserIO rpc dbError auth caller path db).2
          = Netlify.t_organizations db)).
Proof.
  intros [c ->] Hp. unfold Netlify.deleteUserIO. rewrite Hp. simpl. split.
  - by intros message ->.
  - intros ->.
    split; [by destruct auth|]. split; [by destruct auth|].
    split; [by destruct auth|]. split.
    + intros r org Hr Horg Hne. rewrite Hr. simpl. rewrite Horg.
      apply String.eqb_neq in Hne. rewrite Hne. by destruct auth.
    + intros Hnone. rewrite Hnone. simpl.
      split; destruct auth; simpl; by rewrite ?delete_id.
Qed.

Lemma netlify_delete_effect_witness :
  Netlify.deleteUserIO (λ _ _ orgs, orgs) None
    (Netlify.AuthThrows "Expected parameter to be UUID but is not")
    (Some Sample.carol) Sample.eve NetlifySample.tables
  = (Netlify.mkResponse 500
       (Netlify.Error "Expected parameter to be UUID but is not"),
     Netlify.mkTables
       (delete Sample.eve (Netlify.t_users NetlifySample.tables))
       (Netlify.t_organizations NetlifySample.tables)
       (Netlify.t_auth NetlifySample.tables))
  ∧ Netlify.deleteUserIO (λ _ _ orgs, orgs) (Some "violates foreign key constraint")
      Netlify.AuthDone (Some Sample.carol) Sample.eve NetlifySample.tables
    = (Netlify.mkResponse 500 (Netlify.Error "violates foreign key constraint"),
       NetlifySample.tables).
Proof.
  split.
  - reflexivity.
  - destruct (netlify_delete_effect (λ _ _ orgs, orgs)
                (Some "violates foreign key constraint") Netlify.AuthDone
                (Some Sample.carol) Sample.eve NetlifySample.tables)
      as [Hrefused _].
    + by eexists.
    + vm_compute. reflexivity.
    + by apply Hrefused.
Defined.
